(** * SkeddaBooker: the availability checker and the booking loop of skedda.py

    A shallow embedding of [SkeddaBooker.space_is_free], [get_bookings],
    [book_space] and [run].

    Conventions of the embedding.
    - A Python call either returns or raises: [result A].
    - A reservation is the dict decoded from the JSON reply, read only through
      the keys 'spaces', 'space', 'start' and 'end'; it is a record of four
      optional fields ([None] = key absent).  Identifiers are JSON scalars
      (null, booleans, integers, strings); floating point numbers and nested
      containers as identifiers are outside the model.
    - [space_is_free] appends to the list stored under 'spaces' whenever that
      list exists and 'space' is truthy: the local variable [spaces] is then
      an alias of the record's list.  The reservations are therefore threaded
      through the checker, which returns them as it leaves them.  The dicts
      come from one [r.json()] call, so no two records share a list object.
    - [datetime.fromisoformat] is a parameter of the checker; a concrete
      reading of it ([iso_parse]) is used to evaluate examples.
    - The HTTP session is a parameter of the booking loop: a world that
      answers GET and POST.  Every effect of a run is recorded, in order, in a
      trace of events. *)

From Stdlib Require Import ZArith List String Ascii Bool Lia DecimalString.
From Stdlib Require Import Permutation.
Import ListNotations.
Open Scope string_scope.
Open Scope Z_scope.

(** ** Python values *)

Inductive exn := ValueError | TypeError | AttributeError.

Inductive result (A : Type) :=
| Returned (a : A)
| Raised (e : exn).
Arguments Returned {A} a.
Arguments Raised {A} e.

Definition rbind {A B} (r : result A) (k : A -> result B) : result B :=
  match r with
  | Returned a => k a
  | Raised e => Raised e
  end.

Notation "x <- r ;; k" := (rbind r (fun x => k))
  (at level 61, r at next level, right associativity).

Inductive scalar :=
| SNone
| SBool (b : bool)
| SInt (n : Z)
| SStr (s : string).

Inductive value :=
| VScalar (a : scalar)
| VList (l : list scalar)
| VDict (keys : list string).

(** [str(n)] for an int. *)
Definition str_int (n : Z) : string := NilZero.string_of_int (Z.to_int n).

(** [str(x)] *)
Definition py_str (a : scalar) : string :=
  match a with
  | SNone => "None"
  | SBool true => "True"
  | SBool false => "False"
  | SInt n => str_int n
  | SStr s => s
  end.

(** Truth value of [x] in [if x:]. *)
Definition truthy (a : scalar) : bool :=
  match a with
  | SNone => false
  | SBool b => b
  | SInt n => negb (n =? 0)
  | SStr s => negb (s =? "")%string
  end.

(** [s.endswith(suffix)] *)
Definition endswith (s suffix : string) : bool :=
  let n := String.length s in
  let m := String.length suffix in
  (m <=? n)%nat && (substring (n - m) m s =? suffix)%string.

(** [s.replace(old, new)] for a one-character [old]. *)
Fixpoint replace (old : ascii) (new s : string) : string :=
  match s with
  | EmptyString => EmptyString
  | String c s' =>
      if Ascii.eqb c old then new ++ replace old new s'
      else String c (replace old new s')
  end.

(** ** datetime *)

(** A [datetime]: the wall-clock reading in microseconds since
    0001-01-01T00:00:00 and, for an aware value, [utcoffset()] in
    microseconds. *)
Record datetime := mkdt { wall : Z; utcoffset : option Z }.

(** [a < b]: naive against naive compares the readings, aware against aware
    the instants, and mixing the two raises TypeError. *)
Definition dt_lt (a b : datetime) : result bool :=
  match utcoffset a, utcoffset b with
  | None, None => Returned (wall a <? wall b)
  | Some oa, Some ob => Returned (wall a - oa <? wall b - ob)
  | _, _ => Raised TypeError
  end.

(** [a > b] *)
Definition dt_gt (a b : datetime) : result bool :=
  match utcoffset a, utcoffset b with
  | None, None => Returned (wall a >? wall b)
  | Some oa, Some ob => Returned (wall a - oa >? wall b - ob)
  | _, _ => Raised TypeError
  end.

(** ** Reservation records *)

Record booking := mkbooking {
  b_spaces : option value;
  b_space : option scalar;
  b_start : option value;
  b_end : option value
}.

(** [booking.get('space')]: None when the key is absent. *)
Definition get_space (b : booking) : scalar :=
  match b_space b with
  | Some a => a
  | None => SNone
  end.

(** [booking.get(key, '')] for 'start' and 'end'. *)
Definition get_or_empty (field : option value) : value :=
  match field with
  | Some v => v
  | None => VScalar (SStr "")
  end.

(** The receiver of a str method ([endswith], [replace]): anything but a str
    has no such attribute. *)
Definition str_method (v : value) : result string :=
  match v with
  | VScalar (SStr s) => Returned s
  | _ => Raised AttributeError
  end.

(** The argument of [datetime.fromisoformat]: anything but a str is a
    TypeError. *)
Definition str_arg (v : value) : result string :=
  match v with
  | VScalar (SStr s) => Returned s
  | _ => Raised TypeError
  end.

Section Checker.

(** [datetime.fromisoformat]; [None] stands for its ValueError. *)
Variable fromisoformat : string -> option datetime.

Definition parse (s : string) : result datetime :=
  match fromisoformat s with
  | Some d => Returned d
  | None => Raised ValueError
  end.

(** Lines 137-141 and the comprehension of line 143: the strings
    [[str(s) for s in spaces]] and the record as the statements leave it.
    - 'spaces' absent: [spaces] is a fresh list;
    - 'spaces' a str: [spaces] is the fresh list [[spaces]];
    - 'spaces' a list: [spaces] IS the record's list, and [append] grows it
      in the record;
    - otherwise [append] raises AttributeError when 'space' is truthy, and
      the comprehension raises TypeError unless the value is a dict, whose
      iteration yields its keys. *)
Definition blocked_ids (b : booking) : result (list string * booking) :=
  let space := get_space b in
  match b_spaces b with
  | None =>
      let spaces := [] in
      let spaces := if truthy space then (spaces ++ [space])%list else spaces in
      Returned (map py_str spaces, b)
  | Some (VScalar (SStr s)) =>
      let spaces := [SStr s] in
      let spaces := if truthy space then (spaces ++ [space])%list else spaces in
      Returned (map py_str spaces, b)
  | Some (VList l) =>
      if truthy space then
        let l' := (l ++ [space])%list in
        Returned (map py_str l',
                  mkbooking (Some (VList l')) (b_space b) (b_start b) (b_end b))
      else Returned (map py_str l, b)
  | Some (VDict keys) =>
      if truthy space then Raised AttributeError
      else Returned (keys, b)
  | Some (VScalar _) =>
      if truthy space then Raised AttributeError
      else Raised TypeError
  end.

(** [str(space_id) in [str(s) for s in spaces]] *)
Definition mentions (space_id : scalar) (ids : list string) : bool :=
  existsb (String.eqb (py_str space_id)) ids.

(** Lines 145-154: the two timestamps of a reservation. *)
Definition booking_times (b : booking) : result (datetime * datetime) :=
  let start_str := get_or_empty (b_start b) in
  let end_str := get_or_empty (b_end b) in
  s <- str_method start_str ;;
  if endswith s "Z" then
    booking_start <- parse (replace "Z" "+00:00" s) ;;
    e <- str_method end_str ;;
    booking_end <- parse (replace "Z" "+00:00" e) ;;
    Returned (booking_start, booking_end)
  else
    booking_start <- parse s ;;
    e <- str_arg end_str ;;
    booking_end <- parse e ;;
    Returned (booking_start, booking_end).

(** Line 157: [target_start < booking_end and target_end > booking_start],
    the second comparison evaluated only when the first is true. *)
Definition overlap (target_start target_end booking_start booking_end : datetime)
  : result bool :=
  c <- dt_lt target_start booking_end ;;
  if c then dt_gt target_end booking_start else Returned false.

(** Lines 144-160: the body of the try; the bare except turns every
    exception into [continue]. *)
Definition try_overlap (target_start target_end : datetime) (b : booking) : bool :=
  match (t <- booking_times b ;;
         overlap target_start target_end (fst t) (snd t)) with
  | Returned true => true
  | _ => false
  end.

(** Lines 135-162: the loop over the reservations.  The second component is
    the reservation list as the loop leaves it. *)
Fixpoint scan (space_id : scalar) (target_start target_end : datetime)
         (bookings : list booking) : result bool * list booking :=
  match bookings with
  | [] => (Returned true, [])
  | b :: rest =>
      match blocked_ids b with
      | Raised e => (Raised e, b :: rest)
      | Returned (ids, b') =>
          if mentions space_id ids && try_overlap target_start target_end b'
          then (Returned false, b' :: rest)
          else
            let (r, rest') := scan space_id target_start target_end rest in
            (r, b' :: rest')
      end
  end.

Definition space_is_free (space_id : scalar) (start_time end_time : string)
           (bookings : list booking) : result bool * list booking :=
  match parse start_time with
  | Raised e => (Raised e, bookings)
  | Returned target_start =>
      match parse end_time with
      | Raised e => (Raised e, bookings)
      | Returned target_end => scan space_id target_start target_end bookings
      end
  end.

End Checker.

(** ** A concrete [fromisoformat]

    The grammar [YYYY-MM-DD[*HH[:MM[:SS[.fff[fff]]]][(+|-)HH:MM[:SS]]]], with
    the range checks of the [datetime] constructor.  It is used to evaluate
    the checker on examples; every theorem of the checker holds for any
    parser. *)
Module Iso.

Definition digit (c : ascii) : option Z :=
  let n := Z.of_nat (nat_of_ascii c) in
  if (48 <=? n) && (n <=? 57) then Some (n - 48) else None.

(** The decimal number written by a run of digits. *)
Fixpoint number (acc : Z) (l : list ascii) : option Z :=
  match l with
  | [] => Some acc
  | c :: l' =>
      match digit c with
      | Some d => number (10 * acc + d) l'
      | None => None
      end
  end.

Definition two (l : list ascii) : option (Z * list ascii) :=
  match l with
  | a :: b :: rest =>
      match number 0 [a; b] with
      | Some n => Some (n, rest)
      | None => None
      end
  | _ => None
  end.

Definition is_leap (y : Z) : bool :=
  (y mod 4 =? 0) && (negb (y mod 100 =? 0) || (y mod 400 =? 0)).

Definition days_in_month (y m : Z) : Z :=
  if m =? 2 then (if is_leap y then 29 else 28)
  else if (m =? 4) || (m =? 6) || (m =? 9) || (m =? 11) then 30
  else 31.

Fixpoint days_before_month (y : Z) (m : nat) : Z :=
  match m with
  | O => 0
  | S k => days_before_month y k + days_in_month y (Z.of_nat (S k))
  end.

(** The proleptic Gregorian ordinal, 0001-01-01 being day 1. *)
Definition ymd2ord (y m d : Z) : Z :=
  let y1 := y - 1 in
  y1 * 365 + y1 / 4 - y1 / 100 + y1 / 400
  + days_before_month y (Z.to_nat (m - 1)) + d.

(** [HH[:MM[:SS[.fff[fff]]]]]: hour, minute, second, microsecond, and the
    number of fields that were written. *)
Definition hh_mm_ss_ff (l : list ascii) : option (Z * Z * Z * Z * nat) :=
  match two l with
  | None => None
  | Some (h, []) => Some (h, 0, 0, 0, 1%nat)
  | Some (h, c1 :: l1) =>
      if negb (Ascii.eqb c1 ":") then None else
      match two l1 with
      | None => None
      | Some (m, []) => Some (h, m, 0, 0, 2%nat)
      | Some (m, c2 :: l2) =>
          if negb (Ascii.eqb c2 ":") then None else
          match two l2 with
          | None => None
          | Some (s, []) => Some (h, m, s, 0, 3%nat)
          | Some (s, c3 :: frac) =>
              if negb (Ascii.eqb c3 ".") then None else
              match number 0 frac with
              | None => None
              | Some f =>
                  if (List.length frac =? 3)%nat then Some (h, m, s, f * 1000, 4%nat)
                  else if (List.length frac =? 6)%nat then Some (h, m, s, f, 4%nat)
                  else None
              end
          end
      end
  end.

(** The time text up to the first sign, and the sign with what follows. *)
Fixpoint split_offset (l : list ascii) : list ascii * option (Z * list ascii) :=
  match l with
  | [] => ([], None)
  | c :: l' =>
      if Ascii.eqb c "+" then ([], Some (1, l'))
      else if Ascii.eqb c "-" then ([], Some (-1, l'))
      else let (t, o) := split_offset l' in (c :: t, o)
  end.

Definition offset (o : option (Z * list ascii)) : option (option Z) :=
  match o with
  | None => Some None
  | Some (sign, l) =>
      match hh_mm_ss_ff l with
      | Some (h, m, s, _, n) =>
          let off := sign * (h * 3600 + m * 60 + s) * 1000000 in
          if ((n =? 2)%nat || (n =? 3)%nat)
             && (-86400000000 <? off) && (off <? 86400000000)
          then Some (Some off) else None
      | None => None
      end
  end.

Definition time (l : list ascii) : option (Z * option Z) :=
  let (t, o) := split_offset l in
  match hh_mm_ss_ff t, offset o with
  | Some (h, m, s, us, _), Some off =>
      if (h <? 24) && (m <? 60) && (s <? 60)
      then Some ((h * 3600 + m * 60 + s) * 1000000 + us, off)
      else None
  | _, _ => None
  end.

Definition date (y m d : Z) : option Z :=
  if (1 <=? y) && (1 <=? m) && (m <=? 12) && (1 <=? d) && (d <=? days_in_month y m)
  then Some ((ymd2ord y m d - 1) * 86400000000)
  else None.

Definition parse_chars (l : list ascii) : option datetime :=
  match l with
  | y1 :: y2 :: y3 :: y4 :: c1 :: m1 :: m2 :: c2 :: d1 :: d2 :: rest =>
      if negb (Ascii.eqb c1 "-" && Ascii.eqb c2 "-") then None else
      match number 0 [y1; y2; y3; y4], number 0 [m1; m2], number 0 [d1; d2] with
      | Some y, Some m, Some d =>
          match date y m d, rest with
          | Some day, [] => Some (mkdt day None)
          | Some day, _ :: t =>
              match time t with
              | Some (us, off) => Some (mkdt (day + us) off)
              | None => None
              end
          | None, _ => None
          end
      | _, _, _ => None
      end
  | _ => None
  end.

End Iso.

Definition iso_parse (s : string) : option datetime :=
  Iso.parse_chars (list_ascii_of_string s).

(** ** The HTTP session and the trace of a run *)

(** What [r.json().get('bookings', [])] finds under the key. *)
Inductive bookings_json :=
| BkAbsent
| BkNull
| BkList (l : list booking).

(** The body of a reservation-list reply, as line 119 reads it:
    [GetBodyError msg] when [r.json()] raises or does not yield a dict. *)
Inductive get_body :=
| GetBodyError (msg : string)
| GetBodyObject (bookings : bookings_json).

Inductive get_reply :=
| GetRaised (msg : string)
| GetResponse (status_code : Z) (body : get_body).

(** The body of a 422 reply, as lines 211-216 read it: the text of
    [err['errors'][0].get('detail', 'validation error')], nothing to report
    ('errors' absent or empty), or an exception on the way. *)
Inductive rejection :=
| RejDetail (detail : string)
| RejQuiet
| RejUnreadable.

Inductive post_reply :=
| PostRaised (msg : string)
| PostResponse (status_code : Z) (errors : rejection).

(** The fields of the booking payload that vary; the others are the
    constants of lines 172-200. *)
Record payload := mkpayload {
  p_start : string;
  p_end : string;
  p_spaces : list string;
  p_venueuser : string;
  p_venue : string
}.

(** What a run does, in order.  [EvCheck] is a ghost event: it records a call
    of [space_is_free] and its outcome. *)
Inductive event :=
| EvLog (msg : string)
| EvGet (params_start params_end : string) (reply : get_reply)
| EvPost (data : payload) (reply : post_reply)
| EvCheck (space_id : string) (free : result bool).

(** The value [book_space] and [run] return: [False] or a space id. *)
Inductive pyret :=
| RFalse
| RSpace (space_id : string).

(** [if result:] *)
Definition ret_truthy (r : pyret) : bool :=
  match r with
  | RFalse => false
  | RSpace s => truthy (SStr s)
  end.

Record SkeddaBooker := mkbooker {
  venue_id : string;
  user_id : string;
  spaces : list (string * string)
}.

Definition str_nat (n : nat) : string := str_int (Z.of_nat n).

(** How the body of a for loop ends: falls through to the next iteration,
    returns from the function, or raises. *)
Inductive flow (A : Type) :=
| Next (a : A)
| Return (r : pyret * string)
| Raise (e : exn).
Arguments Next {A} a.
Arguments Return {A} r.
Arguments Raise {A} e.

Section Booker.

Variable fromisoformat : string -> option datetime.

(** The session: a world answering the two requests. *)
Variable world : Type.
Variable session_get : world -> string -> string -> get_reply * world.
Variable session_post : world -> payload -> post_reply * world.

(** A computation on the world that emits events. *)
Definition M (A : Type) : Type := world -> A * world * list event.

Definition ret {A} (a : A) : M A := fun w => (a, w, []).

Definition bind {A B} (m : M A) (k : A -> M B) : M B :=
  fun w =>
    let '(a, w1, t1) := m w in
    let '(b, w2, t2) := k a w1 in
    (b, w2, (t1 ++ t2)%list).

Definition emit (ev : event) : M unit := fun w => (tt, w, [ev]).

Notation "'do' x <- m ; k" := (bind m (fun x => k))
  (at level 10, x name, m at level 100, k at level 200).
Notation "m >> k" := (bind m (fun _ => k))
  (at level 62, right associativity).

(** [self.log(msg)]; the clock prefix of the printed line is left out. *)
Definition log (msg : string) : M unit := emit (EvLog msg).

Definition get (params_start params_end : string) : M get_reply :=
  fun w =>
    let (reply, w') := session_get w params_start params_end in
    (reply, w', [EvGet params_start params_end reply]).

Definition post (data : payload) : M post_reply :=
  fun w =>
    let (reply, w') := session_post w data in
    (reply, w', [EvPost data reply]).

Definition get_bookings (self : SkeddaBooker) (date : string)
  : M (option (list booking)) :=
  do r <- get (date ++ "T00:00:00") (date ++ "T23:59:59.999");
  match r with
  | GetRaised msg => log ("error: " ++ msg) >> ret None
  | GetResponse status_code body =>
      if status_code =? 200 then
        match body with
        | GetBodyError msg => log ("error: " ++ msg) >> ret None
        | GetBodyObject BkAbsent => ret (Some [])
        | GetBodyObject BkNull => ret None
        | GetBodyObject (BkList l) => ret (Some l)
        end
      else if status_code =? 401 then log "auth expired" >> ret None
      else log ("failed: " ++ str_int status_code) >> ret None
  end.

Definition book_space (self : SkeddaBooker) (space_id start_time end_time : string)
  : M pyret :=
  let data := mkpayload start_time end_time [space_id] (user_id self) (venue_id self) in
  do r <- post data;
  match r with
  | PostRaised msg => log ("error: " ++ msg) >> ret RFalse
  | PostResponse status_code errors =>
      if status_code =? 200 then ret (RSpace space_id)
      else if status_code =? 422 then
        match errors with
        | RejDetail detail => log ("rejected: " ++ detail) >> ret RFalse
        | RejQuiet => ret RFalse
        | RejUnreadable => log "rejected" >> ret RFalse
        end
      else log ("failed: " ++ str_int status_code) >> ret RFalse
  end.

(** Lines 239-251: the loop over [enumerate(self.spaces.items())] from
    index [i] on, with the reservations as the checker last left them. *)
Fixpoint try_spaces (self : SkeddaBooker) (start_dt end_dt : string) (i : nat)
         (candidates : list (string * string)) (bookings : list booking)
  : M (flow (list booking)) :=
  match candidates with
  | [] => ret (Next bookings)
  | (space_id, space_name) :: rest =>
      log ("trying " ++ space_name ++ " (" ++ str_nat (i + 1) ++ "/"
           ++ str_nat (List.length (spaces self)) ++ ")") >>
      let (free, bookings') :=
        space_is_free fromisoformat (SStr space_id) start_dt end_dt bookings in
      emit (EvCheck space_id free) >>
      match free with
      | Raised e => ret (Raise e)
      | Returned true =>
          log ("booking " ++ space_name ++ "...") >>
          do result <- book_space self space_id start_dt end_dt;
          if ret_truthy result then
            log ("booked " ++ space_name) >>
            ret (Return (result, "booked " ++ space_name))
          else
            log "failed" >>
            try_spaces self start_dt end_dt (S i) rest bookings'
      | Returned false =>
          log "occupied" >>
          try_spaces self start_dt end_dt (S i) rest bookings'
      end
  end.

Definition run (self : SkeddaBooker) (date start_time end_time : string)
  : M (result (pyret * string)) :=
  let start_dt := date ++ "T" ++ start_time in
  let end_dt := date ++ "T" ++ end_time in
  do bookings <- get_bookings self date;
  match bookings with
  | None => ret (Returned (RFalse, "couldn't get bookings"))
  | Some bookings =>
      log (str_nat (List.length bookings) ++ " bookings found") >>
      do f <- try_spaces self start_dt end_dt 0 (spaces self) bookings;
      match f with
      | Return r => ret (Returned r)
      | Raise e => ret (Raised e)
      | Next _ =>
          log "no spaces available" >>
          ret (Returned (RFalse,
                         "all " ++ str_nat (List.length (spaces self)) ++ " spaces taken"))
      end
  end.

End Booker.

Arguments ret {world A} a _.
Arguments run fromisoformat {world} session_get session_post self date start_time end_time _.
Arguments try_spaces fromisoformat {world} session_post self start_dt end_dt i candidates bookings _.
Arguments book_space {world} session_post self space_id start_time end_time _.
Arguments get_bookings {world} session_get self date _.

(** ** A scripted server

    It answers every GET with one reply and the successive POSTs with the
    replies of a list; once the list is used up the connection fails. *)
Record server := mkserver {
  bookings_reply : get_reply;
  post_replies : list post_reply
}.

Definition server_get (sv : server) (params_start params_end : string)
  : get_reply * server :=
  (bookings_reply sv, sv).

Definition server_post (sv : server) (data : payload) : post_reply * server :=
  match post_replies sv with
  | r :: rs => (r, mkserver (bookings_reply sv) rs)
  | [] => (PostRaised "connection refused", sv)
  end.

(** [run] against a scripted server, timestamps read by [iso_parse]. *)
Definition run_scripted (self : SkeddaBooker) (date : string) (sv : server)
  : result (pyret * string) * server * list event :=
  run iso_parse server_get server_post self date "08:30:00" "17:00:00" sv.

Definition ok200 : post_reply := PostResponse 200 RejQuiet.

(** ** Cookies

    [parse_cookies], lines 64-77.  A character is a code point below 256;
    [urllib.parse.unquote] is a parameter. *)

(** [c.isspace()] *)
Definition is_space (c : ascii) : bool :=
  let n := nat_of_ascii c in
  ((9 <=? n) && (n <=? 13) || (28 <=? n) && (n <=? 32)
   || (n =? 133) || (n =? 160))%nat.

(** The double quote. *)
Definition dquote : ascii := ascii_of_nat 34.

Definition is_dquote (c : ascii) : bool := Ascii.eqb c dquote.

(** [s.lstrip(chars)], the characters to strip given as a predicate. *)
Fixpoint lstrip (p : ascii -> bool) (s : string) : string :=
  match s with
  | EmptyString => EmptyString
  | String c s' => if p c then lstrip p s' else s
  end.

(** [s.rstrip(chars)] *)
Fixpoint rstrip (p : ascii -> bool) (s : string) : string :=
  match s with
  | EmptyString => EmptyString
  | String c s' =>
      let r := rstrip p s' in
      if p c && (r =? EmptyString)%string then EmptyString else String c r
  end.

(** [s.strip(chars)] *)
Definition strip (p : ascii -> bool) (s : string) : string :=
  rstrip p (lstrip p s).

(** [c in s] for a character [c]. *)
Fixpoint contains (c : ascii) (s : string) : bool :=
  match s with
  | EmptyString => false
  | String c' s' => Ascii.eqb c' c || contains c s'
  end.

(** Puts a character in front of the first piece. *)
Definition cons_head (c : ascii) (pieces : list string) : list string :=
  match pieces with
  | h :: t => String c h :: t
  | [] => [String c EmptyString]
  end.

(** [s.split(sep)] for the two-character separator [a b]. *)
Fixpoint split2 (a b : ascii) (s : string) : list string :=
  match s with
  | EmptyString => [EmptyString]
  | String c s' =>
      match s' with
      | String c' s'' =>
          if Ascii.eqb c a && Ascii.eqb c' b
          then EmptyString :: split2 a b s''
          else cons_head c (split2 a b s')
      | EmptyString => [String c EmptyString]
      end
  end.

(** [s.split(sep, 1)] for a character [sep] that occurs in [s]: what is
    before its first occurrence and what is after; [None] when [sep] does
    not occur. *)
Fixpoint split_first (sep : ascii) (s : string) : option (string * string) :=
  match s with
  | EmptyString => None
  | String c s' =>
      if Ascii.eqb c sep then Some (EmptyString, s')
      else match split_first sep s' with
           | Some (k, v) => Some (String c k, v)
           | None => None
           end
  end.

(** A dict from str to str, in insertion order. *)
Definition dict : Type := list (string * string).

(** [d[k] = v]: the value is replaced where the key is, or the item is
    added at the end. *)
Fixpoint dict_set (k v : string) (d : dict) : dict :=
  match d with
  | [] => [(k, v)]
  | (k', v') :: d' =>
      if (k' =? k)%string then (k', v) :: d' else (k', v') :: dict_set k v d'
  end.

(** [d.get(k)] *)
Fixpoint dict_get (k : string) (d : dict) : option string :=
  match d with
  | [] => None
  | (k', v') :: d' => if (k' =? k)%string then Some v' else dict_get k d'
  end.

Section Cookies.

(** [urllib.parse.unquote] *)
Variable unquote : string -> string.

(** Lines 70-75: the body of the loop, for one piece of the string. *)
Definition add_cookie (cookies : dict) (cookie : string) : dict :=
  match split_first "=" cookie with
  | Some (k, v) =>
      let v := if contains "%" v then unquote v else v in
      dict_set k v cookies
  | None => cookies
  end.

Definition parse_cookies (cookie_str : string) : dict :=
  let cookie_str := strip is_dquote (strip is_space cookie_str) in
  fold_left add_cookie (split2 ";" " " cookie_str) [].

End Cookies.

(** A reading of [unquote] on escapes below %80, to evaluate examples:
    [%XX] with two hexadecimal digits becomes the character of that code,
    anything else is kept.  (From %80 on Python decodes UTF-8, which this
    reading does not: it keeps such escapes.) *)
Module Unquote.

Definition hex (c : ascii) : option nat :=
  let n := nat_of_ascii c in
  if ((48 <=? n) && (n <=? 57))%nat then Some (n - 48)%nat
  else if ((65 <=? n) && (n <=? 70))%nat then Some (n - 55)%nat
  else if ((97 <=? n) && (n <=? 102))%nat then Some (n - 87)%nat
  else None.

Fixpoint low (s : string) : string :=
  match s with
  | EmptyString => EmptyString
  | String c s' =>
      match s' with
      | String h (String l rest) =>
          match hex h, hex l with
          | Some a, Some b =>
              if Ascii.eqb c "%" && (16 * a + b <? 128)%nat
              then String (ascii_of_nat (16 * a + b)) (low rest)
              else String c (low s')
          | _, _ => String c (low s')
          end
      | _ => String c (low s')
      end
  end.

End Unquote.

(** ** Loading the configuration

    [__init__], [load_spaces] and [load_auth], lines 23-62 and 79-99.  The
    process environment and config.json are one value, read but not
    written: [config_json] is the dict [json.load] returns, or [None] when
    the file cannot be opened or parsed or does not hold an object (a
    subscript or a [.get] on anything else raises, which the bare excepts
    treat alike).  [json.loads] is a parameter. *)

Record environ := mkenv {
  getenv : string -> option string;
  config_json : option (list (string * value))
}.

(** How a call that may leave through [sys.exit] ends. *)
Inductive outcome (A : Type) :=
| Done (a : A)
| Exit (code : Z)
| Crash (e : exn).
Arguments Done {A} a.
Arguments Exit {A} code.
Arguments Crash {A} e.

(** [os.getenv(name)] as a Python value. *)
Definition env_value (env : environ) (name : string) : value :=
  match getenv env name with
  | Some s => VScalar (SStr s)
  | None => VScalar SNone
  end.

(** [config.get(k)] on the dict of config.json. *)
Fixpoint lookup (k : string) (d : list (string * value)) : option value :=
  match d with
  | [] => None
  | (k', v) :: d' => if (k' =? k)%string then Some v else lookup k d'
  end.

(** Truth value of a JSON value. *)
Definition value_truthy (v : value) : bool :=
  match v with
  | VScalar a => truthy a
  | VList l => negb (List.length l =? 0)%nat
  | VDict keys => negb (List.length keys =? 0)%nat
  end.

(** What [__init__] leaves in [self]. *)
Record loaded (J : Type) := mkloaded {
  l_base_url : string;
  l_venue_id : string;
  l_user_id : string;
  l_spaces : J;
  l_cookies : dict;
  l_token : string
}.

Section Config.

Variable unquote : string -> string.

(** The values [json.loads] yields, and [json.loads] on a str; [None]
    stands for its JSONDecodeError. *)
Variable J : Type.
Variable json_loads : string -> option J.

(** Lines 46-62.  The second component is what is printed. *)
Definition load_auth (env : environ) : outcome (dict * string) * list string :=
  let cookies_str := env_value env "SKEDDA_COOKIES" in
  let token := env_value env "SKEDDA_TOKEN" in
  let found :=
    if value_truthy cookies_str then Some (cookies_str, token)
    else
      match config_json env with
      | Some config =>
          match lookup "SKEDDA_COOKIES" config, lookup "SKEDDA_TOKEN" config with
          | Some c, Some t => Some (c, t)
          | _, _ => None
          end
      | None => None
      end in
  match found with
  | None => (Exit 1, ["missing config - run --setup first"])
  | Some (VScalar (SStr cookies_str), VScalar (SStr token)) =>
      (Done (parse_cookies unquote cookies_str, strip is_space token), [])
  | Some _ => (Crash AttributeError, [])
  end.

(** Lines 79-99. *)
Definition load_spaces (env : environ) : outcome J * list string :=
  let spaces_json := env_value env "SKEDDA_SPACES" in
  let spaces_json :=
    if value_truthy spaces_json then spaces_json
    else
      match config_json env with
      | Some config =>
          match lookup "SKEDDA_SPACES" config with
          | Some v => v
          | None => VScalar SNone
          end
      | None => spaces_json
      end in
  if negb (value_truthy spaces_json) then (Exit 1, ["missing spaces config"])
  else
    match spaces_json with
    | VScalar (SStr s) =>
        match json_loads s with
        | Some spaces => (Done spaces, [])
        | None => (Exit 1, ["invalid spaces json"])
        end
    | _ => (Crash TypeError, [])
    end.

(** Lines 23-44. *)
Definition __init__ (env : environ) : outcome (loaded J) * list string :=
  let base_url :=
    match getenv env "SKEDDA_BASE_URL" with
    | Some s => s
    | None => "https://your-instance.skedda.com"
    end in
  let venue_id := env_value env "SKEDDA_VENUE_ID" in
  let user_id := env_value env "SKEDDA_USER_ID" in
  match venue_id, user_id with
  | VScalar (SStr venue), VScalar (SStr user) =>
      if negb (value_truthy venue_id) || negb (value_truthy user_id)
      then (Exit 1, ["missing venue_id or user_id"])
      else
        match load_spaces env with
        | (Done spaces, out1) =>
            match load_auth env with
            | (Done (cookies, token), out2) =>
                (Done (mkloaded J base_url venue user spaces cookies token),
                 (out1 ++ out2)%list)
            | (Exit code, out2) => (Exit code, (out1 ++ out2)%list)
            | (Crash e, out2) => (Crash e, (out1 ++ out2)%list)
            end
        | (Exit code, out1) => (Exit code, out1)
        | (Crash e, out1) => (Crash e, out1)
        end
  | _, _ => (Exit 1, ["missing venue_id or user_id"])
  end.

End Config.

(** Whether [os.getenv(name)] is a non-empty str. *)
Definition env_set (env : environ) (name : string) : bool :=
  value_truthy (env_value env name).

(** The environment with one variable set or unset. *)
Definition with_var (env : environ) (name : string) (v : option string) : environ :=
  mkenv (fun n => if (n =? name)%string then v else getenv env n) (config_json env).

(** A reading of [json.loads] on the texts of flat objects, to evaluate
    examples: an object whose names and values are strings without escapes,
    as in SKEDDA_SPACES.  Every other text is refused here, also where
    Python reads it. *)
Module Json.

Definition is_ws (c : ascii) : bool :=
  let n := nat_of_ascii c in
  ((n =? 32) || (n =? 9) || (n =? 10) || (n =? 13))%nat.

Fixpoint skip_ws (l : list ascii) : list ascii :=
  match l with
  | c :: l' => if is_ws c then skip_ws l' else l
  | [] => []
  end.

(** The characters up to the closing quote, and what follows it. *)
Fixpoint chars (l : list ascii) : option (string * list ascii) :=
  match l with
  | [] => None
  | c :: l' =>
      if Ascii.eqb c dquote then Some (EmptyString, l')
      else if Ascii.eqb c "\" then None
      else match chars l' with
           | Some (s, rest) => Some (String c s, rest)
           | None => None
           end
  end.

Definition str (l : list ascii) : option (string * list ascii) :=
  match l with
  | c :: l' => if Ascii.eqb c dquote then chars l' else None
  | [] => None
  end.

(** The members after the opening brace; [fuel] bounds their number. *)
Fixpoint members (fuel : nat) (l : list ascii) : option (list (string * string)) :=
  match fuel with
  | O => None
  | S fuel' =>
      match str (skip_ws l) with
      | None => None
      | Some (k, l1) =>
          match skip_ws l1 with
          | c :: l2 =>
              if negb (Ascii.eqb c ":") then None else
              match str (skip_ws l2) with
              | None => None
              | Some (v, l3) =>
                  match skip_ws l3 with
                  | c' :: l4 =>
                      if Ascii.eqb c' "}" then
                        match skip_ws l4 with
                        | [] => Some [(k, v)]
                        | _ => None
                        end
                      else if Ascii.eqb c' "," then
                        match members fuel' l4 with
                        | Some kvs => Some ((k, v) :: kvs)
                        | None => None
                        end
                      else None
                  | [] => None
                  end
              end
          | [] => None
          end
      end
  end.

Definition object (l : list ascii) : option (list (string * string)) :=
  match skip_ws l with
  | c :: l1 =>
      if negb (Ascii.eqb c "{") then None else
      match skip_ws l1 with
      | c' :: l2 =>
          if Ascii.eqb c' "}" then
            match skip_ws l2 with
            | [] => Some []
            | _ => None
            end
          else members (List.length l1) l1
      | [] => None
      end
  | [] => None
  end.

End Json.

(** The items of a Cookie header: [k=v] joined by [; ]. *)
Definition cookie_header (l : list (string * string)) : string :=
  String.concat "; " (map (fun kv => fst kv ++ "=" ++ snd kv) l).

(** Every character of the string satisfies [p]. *)
Fixpoint all_chars (p : ascii -> bool) (s : string) : bool :=
  match s with
  | EmptyString => true
  | String c s' => p c && all_chars p s'
  end.

(** Neither whitespace nor a double quote. *)
Definition bare (c : ascii) : bool := negb (is_space c) && negb (is_dquote c).

(** A character of a cookie name or value: bare, and not a semicolon. *)
Definition cookie_char (c : ascii) : bool := bare c && negb (Ascii.eqb c ";").

(** The dict built by setting the items in order. *)
Definition dict_of (l : list (string * string)) : dict :=
  fold_left (fun d kv => dict_set (fst kv) (snd kv) d) l [].

(** [json.loads] on a flat object: the dict of its members. *)
Definition json_flat (s : string) : option dict :=
  match Json.object (list_ascii_of_string s) with
  | Some kvs => Some (dict_of kvs)
  | None => None
  end.

(** The text between double quotes. *)
Definition quoted (s : string) : string :=
  String dquote (s ++ String dquote EmptyString).

(** The value of the last item with key [k]. *)
Definition last_value (k : string) (l : list (string * string)) : option string :=
  fold_left (fun acc kv => if (fst kv =? k)%string then Some (snd kv) else acc) l None.

(** The value as [parse_cookies] stores it. *)
Definition stored (unquote : string -> string) (v : string) : string :=
  if contains "%" v then unquote v else v.

(** Whether the pair can be written as an item [k=v]: characters of a
    cookie, no equals sign in the name. *)
Definition item_ok (kv : string * string) : Prop :=
  all_chars cookie_char (fst kv) = true
  /\ all_chars cookie_char (snd kv) = true
  /\ contains "=" (fst kv) = false.

(** The last character of [String c s]. *)
Fixpoint last_char (c : ascii) (s : string) : ascii :=
  match s with
  | EmptyString => c
  | String c' s' => last_char c' s'
  end.

(** The string is not empty, and neither its first nor its last character
    is whitespace or a double quote. *)
Definition ends_bare (s : string) : bool :=
  match s with
  | EmptyString => false
  | String c s' => bare c && bare (last_char c s')
  end.

(** ** Notions used in the statements *)

(** The reservation blocks the resource: the merge of its identifier
    fields succeeds and holds [str(space_id)]. *)
Definition blocks (space_id : scalar) (b : booking) : Prop :=
  exists ids b', blocked_ids b = Returned (ids, b') /\ In (py_str space_id) ids.

(** The merge of the identifier fields succeeds and does not hold
    [str(space_id)]. *)
Definition unrelated (space_id : scalar) (b : booking) : Prop :=
  exists ids b', blocked_ids b = Returned (ids, b') /\ ~ In (py_str space_id) ids.

(** Both timestamps are strings in the offset-free form, read as the naive
    datetimes [bs] and [be]. *)
Definition plain_times (fromisoformat : string -> option datetime)
           (b : booking) (bs be : datetime) : Prop :=
  exists s e,
    b_start b = Some (VScalar (SStr s)) /\ b_end b = Some (VScalar (SStr e))
    /\ endswith s "Z" = false
    /\ fromisoformat s = Some bs /\ fromisoformat e = Some be
    /\ utcoffset bs = None /\ utcoffset be = None.

(** What a call of [space_is_free] may have done to a record: nothing, or
    what lines 137-141 do to it. *)
Definition grown (b b1 : booking) : Prop :=
  b1 = b \/ exists ids, blocked_ids b = Returned (ids, b1).

(** The value under 'spaces' is neither a list nor a str, and it cannot be
    merged: 'space' is truthy (so [append] is called on it), or the value is
    not a dict (so it cannot be iterated). *)
Definition unmergeable (b : booking) : Prop :=
  match b_spaces b with
  | Some (VScalar (SStr _)) | Some (VList _) | None => False
  | Some (VScalar _) => True
  | Some (VDict _) => truthy (get_space b) = true
  end.

(** The submission was acknowledged: status 200. *)
Definition accepted (reply : post_reply) : bool :=
  match reply with
  | PostResponse status_code _ => status_code =? 200
  | PostRaised _ => false
  end.

(** What [book_space] logs for a reply. *)
Definition book_log (reply : post_reply) : list event :=
  match reply with
  | PostRaised msg => [EvLog ("error: " ++ msg)]
  | PostResponse status_code errors =>
      if status_code =? 200 then []
      else if status_code =? 422 then
        match errors with
        | RejDetail detail => [EvLog ("rejected: " ++ detail)]
        | RejQuiet => []
        | RejUnreadable => [EvLog "rejected"]
        end
      else [EvLog ("failed: " ++ str_int status_code)]
  end.

(** The candidates checked, in order. *)
Definition checks (t : list event) : list string :=
  flat_map (fun ev => match ev with EvCheck space_id _ => [space_id] | _ => [] end) t.

(** The candidates a booking was submitted for, in order. *)
Definition posted (t : list event) : list string :=
  flat_map (fun ev => match ev with EvPost data _ => p_spaces data | _ => [] end) t.

(** A computation's result with the events [t] put before its own. *)
Definition prepend {W A} (t : list event) (x : A * W * list event)
  : A * W * list event :=
  let '(a, w, t') := x in (a, w, (t ++ t')%list).

(** The first line logged for a candidate. *)
Definition trying (self : SkeddaBooker) (i : nat) (space_name : string) : event :=
  EvLog ("trying " ++ space_name ++ " (" ++ str_nat (i + 1) ++ "/"
         ++ str_nat (List.length (spaces self)) ++ ")").

(** The loop, followed by [k] when it falls through. *)
Definition and_then {W} (x : flow (list booking) * W * list event)
           (k : list booking -> W -> flow (list booking) * W * list event)
  : flow (list booking) * W * list event :=
  let '(f, w1, t1) := x in
  match f with
  | Next bookings1 => prepend t1 (k bookings1 w1)
  | Return r => (Return r, w1, t1)
  | Raise e => (Raise e, w1, t1)
  end.

(** What [run] returns for the way its loop ended. *)
Definition verdict (self : SkeddaBooker) (f : flow (list booking))
  : result (pyret * string) :=
  match f with
  | Return r => Returned r
  | Raise e => Raised e
  | Next _ =>
      Returned (RFalse,
                "all " ++ str_nat (List.length (spaces self)) ++ " spaces taken")
  end.

(** The fetch failed: the request raised, the status is not 200, or reading
    the body of the reply raised. *)
Definition fetch_failed (reply : get_reply) : Prop :=
  match reply with
  | GetRaised _ => True
  | GetResponse status_code body =>
      status_code <> 200 \/ exists msg, body = GetBodyError msg
  end.

(** The datetime carries an offset. *)
Definition aware (d : datetime) : bool :=
  match utcoffset d with
  | Some _ => true
  | None => false
  end.

(** The identifier fields of the record can be merged: lines 137-143 run
    without an exception. *)
Definition merges (b : booking) : Prop :=
  exists ids b', blocked_ids b = Returned (ids, b').

(** The only change a call makes to a record: the truthy value under
    'space' is appended to the list under 'spaces'. *)
Definition appended (b b1 : booking) : Prop :=
  b1 = b
  \/ exists l x,
      b_spaces b = Some (VList l) /\ b_space b = Some x /\ truthy x = true
      /\ b1 = mkbooking (Some (VList (l ++ [x]))) (Some x) (b_start b) (b_end b).

(** Whether the record makes the loop of [space_is_free] return False. *)
Definition hits (fromisoformat : string -> option datetime)
           (space_id : scalar) (ts te : datetime) (b : booking) : bool :=
  match blocked_ids b with
  | Returned (ids, _) => mentions space_id ids && try_overlap fromisoformat ts te b
  | Raised _ => false
  end.

(** The candidates found free, in order. *)
Definition free_checks (t : list event) : list string :=
  flat_map (fun ev => match ev with
                      | EvCheck space_id (Returned true) => [space_id]
                      | _ => []
                      end) t.

(** The parameters of the GETs sent, in order. *)
Definition gets (t : list event) : list (string * string) :=
  flat_map (fun ev => match ev with
                      | EvGet params_start params_end _ =>
                          [(params_start, params_end)]
                      | _ => []
                      end) t.

(** The candidates whose submission was acknowledged, in order. *)
Definition acknowledged (t : list event) : list string :=
  flat_map (fun ev => match ev with
                      | EvPost data reply =>
                          if accepted reply then p_spaces data else []
                      | _ => []
                      end) t.

(** The trace holds log lines only. *)
Definition only_logs (t : list event) : Prop :=
  Forall (fun ev => exists msg, ev = EvLog msg) t.

(** An environment given by its variables and config.json. *)
Definition env_of (vars : dict) (config : option (list (string * value))) : environ :=
  mkenv (fun name => dict_get name vars) config.

(** SKEDDA_SPACES as setup writes it: the text of a flat object. *)
Definition two_desks_json : string :=
  "{" ++ quoted "r1" ++ ": " ++ quoted "Desk A" ++ ", "
      ++ quoted "r2" ++ ": " ++ quoted "Desk B" ++ "}".

(** Everything in the environment. *)
Definition full_env : environ :=
  env_of [("SKEDDA_VENUE_ID", "venue"); ("SKEDDA_USER_ID", "user");
          ("SKEDDA_SPACES", two_desks_json);
          ("SKEDDA_COOKIES", "sid=abc; theme=dark"); ("SKEDDA_TOKEN", " tok ")]
         None.

(** ** Sample reservations, candidates and replies *)

Definition str_field (s : string) : option value := Some (VScalar (SStr s)).

(** {'spaces': ['r1'], 'start': '2024-01-15T08:00:00',
     'end': '2024-01-15T12:00:00'} *)
Definition r1_morning : booking :=
  mkbooking (Some (VList [SStr "r1"])) None
            (str_field "2024-01-15T08:00:00") (str_field "2024-01-15T12:00:00").

(** {'spaces': ['r1'], 'start': 'soon', 'end': '2024-01-15T12:00:00'} *)
Definition r1_garbled : booking :=
  mkbooking (Some (VList [SStr "r1"])) None
            (str_field "soon") (str_field "2024-01-15T12:00:00").

(** {'spaces': ['r1'], 'start': '2024-01-14T00:00:00Z',
     'end': '2024-01-17T00:00:00Z'} *)
Definition r1_three_days_utc : booking :=
  mkbooking (Some (VList [SStr "r1"])) None
            (str_field "2024-01-14T00:00:00Z") (str_field "2024-01-17T00:00:00Z").

(** {'spaces': ['r1'], 'space': 'r1', 'start': ..., 'end': ...} *)
Definition r1_both_fields : booking :=
  mkbooking (Some (VList [SStr "r1"])) (Some (SStr "r1"))
            (str_field "2024-01-15T08:00:00") (str_field "2024-01-15T12:00:00").

(** {'spaces': null, 'space': 'r1', 'start': ..., 'end': ...} *)
Definition null_spaces : booking :=
  mkbooking (Some (VScalar SNone)) (Some (SStr "r1"))
            (str_field "2024-01-15T08:00:00") (str_field "2024-01-15T12:00:00").

(** {'spaces': {'r7': 1}, 'space': null, 'start': ..., 'end': ...} *)
Definition dict_spaces : booking :=
  mkbooking (Some (VDict ["r7"])) (Some SNone)
            (str_field "2024-01-15T08:00:00") (str_field "2024-01-15T12:00:00").

Definition desks : SkeddaBooker :=
  mkbooker "venue" "user" [("r1", "Desk A"); ("r2", "Desk B"); ("r3", "Desk C")].

(** {'': 'Desk A', 'r2': 'Desk B'}: the first id is the empty string. *)
Definition unnamed_first : SkeddaBooker :=
  mkbooker "venue" "user" [("", "Desk A"); ("r2", "Desk B")].

Definition rejected : post_reply := PostResponse 422 (RejDetail "Too far in advance").

Definition listing (l : list booking) : get_reply :=
  GetResponse 200 (GetBodyObject (BkList l)).

(** * Properties of the availability checker *)

(** ** The concrete parser on three inputs *)

Example iso_parse_naive :
  iso_parse "2024-01-15T08:30:00" = Some (mkdt 63840904200000000 None).
Proof. reflexivity. Qed.

Example iso_parse_utc :
  iso_parse (replace "Z" "+00:00" "2024-01-15T08:30:00Z")
  = Some (mkdt 63840904200000000 (Some 0)).
Proof. reflexivity. Qed.

Example iso_parse_bad : iso_parse "tomorrow" = None.
Proof. reflexivity. Qed.

Section CheckerFacts.

Variable fromisoformat : string -> option datetime.

Lemma mentions_In space_id ids :
  mentions space_id ids = true <-> In (py_str space_id) ids.
Proof.
  unfold mentions. rewrite existsb_exists. split.
  - intros (x & Hx & Heq). apply String.eqb_eq in Heq. now subst.
  - intros H. exists (py_str space_id). split; [assumption | apply String.eqb_refl].
Qed.

Lemma mentions_not_In space_id ids :
  mentions space_id ids = false <-> ~ In (py_str space_id) ids.
Proof.
  rewrite <- mentions_In. destruct (mentions space_id ids); split; intros H;
    try reflexivity; try discriminate; try (intros H'; discriminate).
  exfalso. now apply H.
Qed.

(** The merge touches the identifiers only. *)
Lemma blocked_ids_frame b ids b' :
  blocked_ids b = Returned (ids, b') ->
  b_space b' = b_space b /\ b_start b' = b_start b /\ b_end b' = b_end b.
Proof.
  unfold blocked_ids. intros H.
  destruct (b_spaces b) as [[[ | | | ] | | ] | ]; destruct (truthy (get_space b));
    inversion H; subst; auto.
Qed.

Lemma booking_times_frame b ids b' :
  blocked_ids b = Returned (ids, b') ->
  booking_times fromisoformat b' = booking_times fromisoformat b.
Proof.
  intros H. destruct (blocked_ids_frame _ _ _ H) as (_ & Hs & He).
  unfold booking_times. now rewrite Hs, He.
Qed.

Lemma try_overlap_frame ts te b ids b' :
  blocked_ids b = Returned (ids, b') ->
  try_overlap fromisoformat ts te b' = try_overlap fromisoformat ts te b.
Proof.
  intros H. unfold try_overlap. now rewrite (booking_times_frame _ _ _ H).
Qed.

(** A record that is not about the resource, or does not overlap, leaves
    the verdict to the records after it. *)
Lemma scan_skip space_id ts te b ids b' rest :
  blocked_ids b = Returned (ids, b') ->
  mentions space_id ids && try_overlap fromisoformat ts te b = false ->
  fst (scan fromisoformat space_id ts te (b :: rest))
  = fst (scan fromisoformat space_id ts te rest).
Proof.
  intros Hb Hskip. simpl. rewrite Hb, (try_overlap_frame _ _ _ _ _ Hb), Hskip.
  now destruct (scan fromisoformat space_id ts te rest).
Qed.

Lemma scan_hit space_id ts te b ids b' rest :
  blocked_ids b = Returned (ids, b') ->
  mentions space_id ids && try_overlap fromisoformat ts te b = true ->
  fst (scan fromisoformat space_id ts te (b :: rest)) = Returned false.
Proof.
  intros Hb Hhit. simpl. now rewrite Hb, (try_overlap_frame _ _ _ _ _ Hb), Hhit.
Qed.

Lemma scan_raise space_id ts te b e rest :
  blocked_ids b = Raised e ->
  fst (scan fromisoformat space_id ts te (b :: rest)) = Raised e.
Proof. intros Hb. simpl. now rewrite Hb. Qed.

(** The loop over [pre ++ post] is the loop over [pre], followed by the
    loop over [post] when [pre] does not decide. *)
Lemma scan_app space_id ts te pre post :
  fst (scan fromisoformat space_id ts te (pre ++ post)) =
  match fst (scan fromisoformat space_id ts te pre) with
  | Returned true => fst (scan fromisoformat space_id ts te post)
  | r => r
  end.
Proof.
  induction pre as [ | b pre IH]; [reflexivity | ].
  simpl. destruct (blocked_ids b) as [[ids b'] | e]; [ | reflexivity].
  destruct (mentions space_id ids && try_overlap fromisoformat ts te b'); [reflexivity | ].
  destruct (scan fromisoformat space_id ts te (pre ++ post)) as [r1 l1].
  destruct (scan fromisoformat space_id ts te pre) as [r2 l2]. exact IH.
Qed.

Lemma space_is_free_fst space_id start_time end_time bookings :
  fst (space_is_free fromisoformat space_id start_time end_time bookings) =
  (ts <- parse fromisoformat start_time ;;
   te <- parse fromisoformat end_time ;;
   fst (scan fromisoformat space_id ts te bookings)).
Proof.
  unfold space_is_free.
  destruct (parse fromisoformat start_time); [ | reflexivity].
  now destruct (parse fromisoformat end_time).
Qed.

(** Removing a record that the loop steps over does not change the
    verdict. *)
Lemma space_is_free_skip space_id start_time end_time pre b post ids b' :
  blocked_ids b = Returned (ids, b') ->
  (forall ts te,
      fromisoformat start_time = Some ts -> fromisoformat end_time = Some te ->
      mentions space_id ids && try_overlap fromisoformat ts te b = false) ->
  fst (space_is_free fromisoformat space_id start_time end_time (pre ++ b :: post)) =
  fst (space_is_free fromisoformat space_id start_time end_time (pre ++ post)).
Proof.
  intros Hb Hskip. rewrite !space_is_free_fst. unfold parse.
  destruct (fromisoformat start_time) as [ts | ] eqn:Hs; [ | reflexivity].
  destruct (fromisoformat end_time) as [te | ] eqn:He; [ | reflexivity].
  simpl. rewrite !scan_app, (scan_skip _ _ _ _ _ _ _ Hb (Hskip ts te eq_refl eq_refl)).
  reflexivity.
Qed.

(** Against a naive window the comparison with an aware end raises
    TypeError, which the bare except swallows. *)
Lemma try_overlap_naive_aware ts te b bs be :
  utcoffset ts = None ->
  booking_times fromisoformat b = Returned (bs, be) ->
  utcoffset be <> None ->
  try_overlap fromisoformat ts te b = false.
Proof.
  intros Hts Hb Hbe. unfold try_overlap. rewrite Hb. unfold overlap, dt_lt.
  simpl. rewrite Hts. now destruct (utcoffset be).
Qed.

(** With a window written without offset, a reservation whose end is read
    as an aware datetime (the trailing-Z form among them) never counts: the
    verdict is the one without it. *)
Lemma aware_reservation_is_skipped
      space_id start_time end_time ts pre b post ids b' bs be :
  fromisoformat start_time = Some ts ->
  utcoffset ts = None ->
  blocked_ids b = Returned (ids, b') ->
  booking_times fromisoformat b = Returned (bs, be) ->
  utcoffset be <> None ->
  fst (space_is_free fromisoformat space_id start_time end_time (pre ++ b :: post)) =
  fst (space_is_free fromisoformat space_id start_time end_time (pre ++ post)).
Proof.
  intros Hs Hts Hb Htimes Hbe. apply (space_is_free_skip _ _ _ _ _ _ _ _ Hb).
  intros ts' te Hs' _. rewrite Hs in Hs'. injection Hs' as <-.
  rewrite (try_overlap_naive_aware _ _ _ _ _ Hts Htimes Hbe). apply andb_false_r.
Qed.

(** When every record blocks the resource, the verdict is the negation of
    'some record overlaps'. *)
Lemma scan_all_blocking space_id ts te bookings :
  (forall b, In b bookings -> blocks space_id b) ->
  fst (scan fromisoformat space_id ts te bookings) =
  Returned (negb (existsb (try_overlap fromisoformat ts te) bookings)).
Proof.
  induction bookings as [ | b rest IH]; intros Hall; [reflexivity | ].
  destruct (Hall b (or_introl eq_refl)) as (ids & b' & Hb & Hin).
  apply mentions_In in Hin.
  destruct (try_overlap fromisoformat ts te b) eqn:Ho.
  - rewrite (scan_hit _ _ _ _ _ _ rest Hb) by now rewrite Hin, Ho.
    simpl. now rewrite Ho.
  - rewrite (scan_skip _ _ _ _ _ _ rest Hb) by now rewrite Hin, Ho.
    simpl. rewrite Ho. apply IH. intros x Hx. apply Hall. now right.
Qed.

Lemma booking_times_plain b bs be :
  plain_times fromisoformat b bs be ->
  booking_times fromisoformat b = Returned (bs, be).
Proof.
  intros (s & e & Hs & He & Hz & Hps & Hpe & _).
  unfold booking_times, parse. rewrite Hs, He. simpl. rewrite Hz. simpl.
  rewrite Hps. simpl. now rewrite Hpe.
Qed.

Lemma plain_times_fun b bs be bs' be' :
  plain_times fromisoformat b bs be -> plain_times fromisoformat b bs' be' ->
  bs = bs' /\ be = be'.
Proof.
  intros H H'. apply booking_times_plain in H, H'. rewrite H in H'.
  now inversion H'.
Qed.

(** Against a naive window, a record with naive timestamps overlaps exactly
    when [rs < be] and [re > bs]. *)
Lemma try_overlap_plain ts te b bs be :
  utcoffset ts = None -> utcoffset te = None ->
  plain_times fromisoformat b bs be ->
  try_overlap fromisoformat ts te b = true
  <-> wall ts < wall be /\ wall te > wall bs.
Proof.
  intros Hts Hte Hp. unfold try_overlap. rewrite (booking_times_plain _ _ _ Hp).
  destruct Hp as (_ & _ & _ & _ & _ & _ & _ & Hbs & Hbe).
  unfold overlap, dt_lt, dt_gt. simpl. rewrite Hts, Hte, Hbs, Hbe. simpl.
  destruct (wall ts <? wall be) eqn:H1.
  - apply Z.ltb_lt in H1. destruct (wall te >? wall bs) eqn:H2.
    + split; [intros _ | reflexivity]. split; [assumption | ].
      now apply Z.gtb_gt.
    + split; [discriminate | ]. intros [_ H]. apply Z.gtb_gt in H. congruence.
  - apply Z.ltb_ge in H1. split; [discriminate | lia].
Qed.

(** C1: over records that block the target resource and carry offset-free
    timestamps, as the requested window does, [space_is_free] returns False
    exactly when some record satisfies [rs < existingEnd] and
    [re > existingStart]; in particular a single record that only touches
    the window at a boundary leaves the resource free. *)
Theorem space_is_free_overlap_iff
        space_id start_time end_time (rs re : datetime) bookings :
  fromisoformat start_time = Some rs ->
  fromisoformat end_time = Some re ->
  utcoffset rs = None -> utcoffset re = None ->
  (forall b, In b bookings ->
             blocks space_id b /\ exists bs be, plain_times fromisoformat b bs be) ->
  exists free,
    fst (space_is_free fromisoformat space_id start_time end_time bookings)
    = Returned free
    /\ (free = false <->
        exists b bs be, In b bookings /\ plain_times fromisoformat b bs be
                        /\ wall rs < wall be /\ wall re > wall bs)
    /\ (forall b bs be,
           bookings = [b] -> plain_times fromisoformat b bs be ->
           wall re = wall bs \/ wall rs = wall be -> free = true).
Proof.
  intros Hs He Hrs Hre Hall.
  assert (Hiff : existsb (try_overlap fromisoformat rs re) bookings = true <->
                 exists b bs be, In b bookings /\ plain_times fromisoformat b bs be
                                 /\ wall rs < wall be /\ wall re > wall bs).
  { rewrite existsb_exists. split.
    - intros (b & Hin & Ho). destruct (Hall b Hin) as (_ & bs & be & Hp).
      exists b, bs, be. split; [assumption | split; [assumption | ]].
      now apply (try_overlap_plain rs re b bs be Hrs Hre Hp).
    - intros (b & bs & be & Hin & Hp & Hlt). exists b. split; [assumption | ].
      now apply (try_overlap_plain rs re b bs be Hrs Hre Hp). }
  exists (negb (existsb (try_overlap fromisoformat rs re) bookings)).
  split; [ | split].
  - rewrite space_is_free_fst. unfold parse. rewrite Hs, He. simpl.
    apply scan_all_blocking. intros b Hin. now apply Hall.
  - rewrite <- Hiff. now destruct (existsb _ bookings).
  - intros b bs be -> Hp Htouch.
    destruct (existsb (try_overlap fromisoformat rs re) [b]) eqn:Hex; [ | reflexivity].
    destruct (proj1 Hiff eq_refl) as (b0 & bs0 & be0 & [<- | []] & Hp0 & H1 & H2).
    destruct (plain_times_fun _ _ _ _ _ Hp Hp0) as [<- <-]. lia.
Qed.

(** The identifiers of a record: the list under 'spaces' and the value
    under 'space', both as [str] writes them. *)
Example blocked_ids_number_and_string :
  blocked_ids (mkbooking (Some (VList [SInt 12])) (Some (SStr "r1")) None None)
  = Returned (["12"; "r1"],
              mkbooking (Some (VList [SInt 12; SStr "r1"])) (Some (SStr "r1"))
                        None None).
Proof. reflexivity. Qed.

Example blocked_ids_single_string :
  blocked_ids (mkbooking (Some (VScalar (SStr "r1"))) (Some (SInt 7)) None None)
  = Returned (["r1"; "7"],
              mkbooking (Some (VScalar (SStr "r1"))) (Some (SInt 7)) None None).
Proof. reflexivity. Qed.

Example blocked_ids_space_only :
  blocked_ids (mkbooking None (Some (SStr "r1")) None None)
  = Returned (["r1"], mkbooking None (Some (SStr "r1")) None None).
Proof. reflexivity. Qed.

(** A numeric id in the data matches the string id of the configuration. *)
Example mentions_number_as_string :
  mentions (SStr "12") ["12"; "r1"] = true /\ mentions (SInt 12) ["12"] = true.
Proof. split; reflexivity. Qed.

(** C8: a reservation whose merged identifiers do not hold the target id
    leaves the verdict as it is without that reservation, whatever its
    interval. *)
Theorem unrelated_reservation_is_ignored
        space_id start_time end_time pre b post :
  unrelated space_id b ->
  fst (space_is_free fromisoformat space_id start_time end_time (pre ++ b :: post))
  = fst (space_is_free fromisoformat space_id start_time end_time (pre ++ post)).
Proof.
  intros (ids & b' & Hb & Hnot). apply mentions_not_In in Hnot.
  apply (space_is_free_skip _ _ _ _ _ _ _ _ Hb).
  intros ts te _ _. now rewrite Hnot.
Qed.

(** C7: a reservation of the target resource whose start or end does not
    parse is left out of the overlap test: the verdict is the one without
    that reservation, and on its own it leaves the resource free where an
    error could have been. *)
Theorem malformed_reservation_is_ignored
        space_id start_time end_time pre b post e :
  blocks space_id b ->
  booking_times fromisoformat b = Raised e ->
  fst (space_is_free fromisoformat space_id start_time end_time (pre ++ b :: post))
  = fst (space_is_free fromisoformat space_id start_time end_time (pre ++ post))
  /\ (forall ts te,
        fromisoformat start_time = Some ts -> fromisoformat end_time = Some te ->
        fst (space_is_free fromisoformat space_id start_time end_time [b])
        = Returned true).
Proof.
  intros (ids & b' & Hb & _) Hbad.
  assert (Hno : forall ts te, try_overlap fromisoformat ts te b = false).
  { intros ts te. unfold try_overlap. now rewrite Hbad. }
  split.
  - apply (space_is_free_skip _ _ _ _ _ _ _ _ Hb).
    intros ts te _ _. rewrite Hno. apply andb_false_r.
  - intros ts te Hs He. rewrite space_is_free_fst. unfold parse.
    rewrite Hs, He. cbv beta iota delta [rbind].
    rewrite (scan_skip _ _ _ _ _ _ [] Hb); [reflexivity | ].
    rewrite Hno. apply andb_false_r.
Qed.

Lemma unmergeable_raises b :
  unmergeable b ->
  blocked_ids b = Raised (if truthy (get_space b) then AttributeError else TypeError).
Proof.
  unfold unmergeable, blocked_ids.
  destruct (b_spaces b) as [[[ | | | ] | | ] | ]; try contradiction;
    intros H; try rewrite H; try reflexivity;
    now destruct (truthy (get_space b)).
Qed.

(** C10, as amended: a reservation with a 'space' field whose 'spaces' value
    is neither a list nor a str makes [space_is_free] raise as soon as the
    loop reaches it, provided 'space' is truthy or 'spaces' is not a dict:
    AttributeError from [append] in the first case, TypeError from the
    iteration otherwise.  Nothing catches it. *)
Theorem unmergeable_reservation_raises
        space_id start_time end_time pre b post x :
  b_space b = Some x ->
  unmergeable b ->
  fst (space_is_free fromisoformat space_id start_time end_time pre) = Returned true ->
  fst (space_is_free fromisoformat space_id start_time end_time (pre ++ b :: post))
  = Raised (if truthy x then AttributeError else TypeError).
Proof.
  intros Hx Hbad. rewrite !space_is_free_fst.
  destruct (parse fromisoformat start_time) as [ts | ]; [ | discriminate].
  destruct (parse fromisoformat end_time) as [te | ]; [ | discriminate].
  simpl. intros Hpre. rewrite scan_app, Hpre.
  rewrite (scan_raise _ _ _ _ _ _ (unmergeable_raises _ Hbad)).
  unfold get_space. now rewrite Hx.
Qed.

(** ** What the growth of the 'spaces' lists changes *)

Lemma scan_cons_fst space_id ts te b rest :
  fst (scan fromisoformat space_id ts te (b :: rest)) =
  match blocked_ids b with
  | Raised e => Raised e
  | Returned (ids, b') =>
      if mentions space_id ids && try_overlap fromisoformat ts te b'
      then Returned false
      else fst (scan fromisoformat space_id ts te rest)
  end.
Proof.
  simpl. destruct (blocked_ids b) as [[ids b'] | e]; [ | reflexivity].
  destruct (mentions space_id ids && try_overlap fromisoformat ts te b');
    [reflexivity | ].
  now destruct (scan fromisoformat space_id ts te rest).
Qed.

(** Merging the fields of a record a second time succeeds again, and finds
    the same identifiers, the appended one twice. *)
Lemma blocked_ids_again b ids b1 :
  blocked_ids b = Returned (ids, b1) ->
  exists ids1 b2,
    blocked_ids b1 = Returned (ids1, b2)
    /\ forall space_id, mentions space_id ids1 = mentions space_id ids.
Proof.
  unfold blocked_ids.
  destruct (b_spaces b) as [[[ | b0 | n | s] | l | keys] | ] eqn:Hsp;
    destruct (truthy (get_space b)) eqn:Ht; intros H; inversion H; subst;
    try (rewrite Hsp, Ht; eexists _, _; split; [reflexivity | reflexivity]).
  cbn [b_spaces]. 
  replace (get_space {| b_spaces := Some (VList (l ++ [get_space b]));
                        b_space := b_space b; b_start := b_start b;
                        b_end := b_end b |})
    with (get_space b) by reflexivity.
  rewrite Ht. eexists _, _. split; [reflexivity | ].
  intros space_id. unfold mentions. rewrite !map_app, !existsb_app. simpl.
  destruct (existsb _ (map py_str l)), (py_str space_id =? py_str (get_space b))%string;
    reflexivity.
Qed.

Lemma grown_refl l : Forall2 grown l l.
Proof. induction l; constructor; [now left | assumption]. Qed.

(** A call leaves the list with the same records, each one grown or not. *)
Lemma scan_grows space_id ts te bookings :
  Forall2 grown bookings (snd (scan fromisoformat space_id ts te bookings)).
Proof.
  induction bookings as [ | b rest IH]; [constructor | ].
  simpl. destruct (blocked_ids b) as [[ids b'] | e] eqn:Hb.
  - destruct (mentions space_id ids && try_overlap fromisoformat ts te b').
    + constructor; [right; now exists ids | apply grown_refl].
    + destruct (scan fromisoformat space_id ts te rest) as [r rest'].
      constructor; [right; now exists ids | exact IH].
  - apply grown_refl.
Qed.

(** The loop gives the same verdict on the grown records. *)
Lemma scan_grown space_id ts te bookings bookings1 :
  Forall2 grown bookings bookings1 ->
  fst (scan fromisoformat space_id ts te bookings1)
  = fst (scan fromisoformat space_id ts te bookings).
Proof.
  induction 1 as [ | b b1 rest rest1 Hg _ IH]; [reflexivity | ].
  rewrite !scan_cons_fst, IH. destruct Hg as [-> | [ids Hb]]; [reflexivity | ].
  destruct (blocked_ids_again _ _ _ Hb) as (ids1 & b2 & Hb1 & Hm).
  rewrite Hb, Hb1, Hm, (try_overlap_frame _ _ _ _ _ Hb1). reflexivity.
Qed.

(** The verdict of a call does not depend on the calls made before it on the
    same list: the lists they grew hold the same identifiers. *)
Lemma space_is_free_after_call
      space_id start_time end_time space_id' start_time' end_time' bookings :
  fst (space_is_free fromisoformat space_id start_time end_time
         (snd (space_is_free fromisoformat space_id' start_time' end_time' bookings)))
  = fst (space_is_free fromisoformat space_id start_time end_time bookings).
Proof.
  rewrite !space_is_free_fst.
  destruct (parse fromisoformat start_time) as [ts | ]; [ | reflexivity].
  destruct (parse fromisoformat end_time) as [te | ]; [ | reflexivity].
  simpl. apply scan_grown. unfold space_is_free.
  destruct (parse fromisoformat start_time'); [ | apply grown_refl].
  destruct (parse fromisoformat end_time'); [ | apply grown_refl].
  apply scan_grows.
Qed.

(** ** Further properties of the checker *)

Lemma blocked_ids_not_ValueError b : blocked_ids b <> Raised ValueError.
Proof.
  unfold blocked_ids.
  destruct (b_spaces b) as [[[ | | | ] | | ] | ]; destruct (truthy (get_space b));
    discriminate.
Qed.

Lemma scan_not_ValueError space_id ts te bookings :
  fst (scan fromisoformat space_id ts te bookings) <> Raised ValueError.
Proof.
  induction bookings as [ | b rest IH]; [discriminate | ].
  rewrite scan_cons_fst. pose proof (blocked_ids_not_ValueError b) as Hb.
  destruct (blocked_ids b) as [[ids b'] | e]; [ | congruence].
  now destruct (mentions space_id ids && try_overlap fromisoformat ts te b').
Qed.

(** Lines 132-133: [space_is_free] raises ValueError exactly when the start
    or the end of the requested window does not parse, whatever the
    reservations are; it then leaves them untouched. *)
Theorem space_is_free_ValueError_iff space_id start_time end_time bookings :
  (fst (space_is_free fromisoformat space_id start_time end_time bookings)
   = Raised ValueError
   <-> fromisoformat start_time = None \/ fromisoformat end_time = None)
  /\ (fst (space_is_free fromisoformat space_id start_time end_time bookings)
      = Raised ValueError ->
      snd (space_is_free fromisoformat space_id start_time end_time bookings)
      = bookings).
Proof.
  unfold space_is_free, parse.
  destruct (fromisoformat start_time) as [ts | ].
  - destruct (fromisoformat end_time) as [te | ].
    + split; [split | ].
      * intros H. now apply scan_not_ValueError in H.
      * intros [H | H]; discriminate.
      * intros H. now apply scan_not_ValueError in H.
    + split; [split | ]; auto.
  - split; [split | ]; auto.
Qed.

(** The verdict, read backwards: False is returned only when some record
    names the resource and overlaps the window, True only when every record
    merges and none does both. *)
Theorem space_is_free_verdict_sound
        space_id start_time end_time ts te bookings :
  fromisoformat start_time = Some ts ->
  fromisoformat end_time = Some te ->
  (fst (space_is_free fromisoformat space_id start_time end_time bookings)
   = Returned false ->
   exists b, In b bookings /\ blocks space_id b
             /\ try_overlap fromisoformat ts te b = true)
  /\ (fst (space_is_free fromisoformat space_id start_time end_time bookings)
      = Returned true ->
      forall b, In b bookings ->
                merges b
                /\ ~ (blocks space_id b /\ try_overlap fromisoformat ts te b = true)).
Proof.
  intros Hs He. rewrite space_is_free_fst. unfold parse. rewrite Hs, He.
  cbv beta iota delta [rbind].
  induction bookings as [ | b rest [IHf IHt]].
  - split; [discriminate | intros _ b []].
  - rewrite scan_cons_fst.
    destruct (blocked_ids b) as [[ids b'] | e] eqn:Hb; [ | split; discriminate].
    rewrite (try_overlap_frame _ _ _ _ _ Hb).
    destruct (mentions space_id ids) eqn:Hm; cbn [andb].
    + destruct (try_overlap fromisoformat ts te b) eqn:Ho.
      * split; [intros _ | discriminate].
        exists b. split; [now left | split; [ | assumption]].
        exists ids, b'. split; [assumption | now apply mentions_In].
      * split.
        -- intros H. destruct (IHf H) as (b0 & Hin & Hb0). exists b0.
           split; [now right | assumption].
        -- intros H b0 [<- | Hin]; [ | now apply IHt].
           split; [now exists ids, b' | ]. intros [_ Hov]. congruence.
    + split.
      * intros H. destruct (IHf H) as (b0 & Hin & Hb0). exists b0.
        split; [now right | assumption].
      * intros H b0 [<- | Hin]; [ | now apply IHt].
        split; [now exists ids, b' | ].
        intros [(ids0 & b0 & Hb0 & Hin0) _]. rewrite Hb in Hb0.
        injection Hb0 as <- <-. apply mentions_In in Hin0. congruence.
Qed.

Lemma grown_appended b b1 : grown b b1 -> appended b b1.
Proof.
  intros [-> | [ids H]]; [now left | ]. unfold blocked_ids in H.
  destruct (b_spaces b) as [[[ | | | ] | l | ] | ] eqn:Hsp;
    destruct (truthy (get_space b)) eqn:Ht; inversion H; subst;
    try (now left).
  right. unfold get_space in *. destruct (b_space b) as [x | ] eqn:Hx.
  - exists l, x. now repeat split.
  - discriminate.
Qed.

(** What a call does to the reservations: the list keeps its records, in
    order, and a record changes only by getting its own truthy 'space'
    appended to its 'spaces' list. *)
Theorem space_is_free_only_appends space_id start_time end_time bookings :
  Forall2 appended bookings
          (snd (space_is_free fromisoformat space_id start_time end_time bookings)).
Proof.
  assert (Hrefl : Forall2 appended bookings bookings).
  { induction bookings; constructor; [now left | assumption]. }
  unfold space_is_free.
  destruct (parse fromisoformat start_time); [ | exact Hrefl].
  destruct (parse fromisoformat end_time); [ | exact Hrefl].
  eapply Forall2_impl; [ | apply scan_grows]. apply grown_appended.
Qed.

Lemma try_overlap_mixed ts te b bs be :
  booking_times fromisoformat b = Returned (bs, be) ->
  aware ts <> aware be \/ aware te <> aware bs ->
  try_overlap fromisoformat ts te b = false.
Proof.
  intros Hb Hmix. unfold try_overlap. rewrite Hb. unfold overlap, dt_lt, dt_gt.
  unfold aware in Hmix. simpl.
  destruct (utcoffset ts), (utcoffset be), (utcoffset te), (utcoffset bs);
    simpl; try reflexivity;
    try (destruct Hmix as [H | H]; now contradiction H);
    match goal with |- context [if ?c then _ else _] => now destruct c end.
Qed.

(** Lines 157-160: a reservation that is aware where the window is naive,
    or naive where the window is aware, never counts: the comparison raises
    inside the try, and the verdict is the one without the reservation. *)
Theorem mixed_awareness_is_skipped
        space_id start_time end_time ts te pre b post bs be :
  fromisoformat start_time = Some ts ->
  fromisoformat end_time = Some te ->
  merges b ->
  booking_times fromisoformat b = Returned (bs, be) ->
  aware ts <> aware be \/ aware te <> aware bs ->
  fst (space_is_free fromisoformat space_id start_time end_time (pre ++ b :: post))
  = fst (space_is_free fromisoformat space_id start_time end_time (pre ++ post)).
Proof.
  intros Hs He (ids & b' & Hb) Htimes Hmix.
  apply (space_is_free_skip _ _ _ _ _ _ _ _ Hb).
  intros ts' te' Hs' He'. rewrite Hs in Hs'. rewrite He in He'.
  injection Hs' as <-. injection He' as <-.
  rewrite (try_overlap_mixed _ _ _ _ _ Htimes Hmix). apply andb_false_r.
Qed.

Lemma scan_all_merge space_id ts te bookings :
  Forall merges bookings ->
  fst (scan fromisoformat space_id ts te bookings)
  = Returned (negb (existsb (hits fromisoformat space_id ts te) bookings)).
Proof.
  induction 1 as [ | b rest (ids & b' & Hb) _ IH]; [reflexivity | ].
  rewrite scan_cons_fst. cbn [existsb]. unfold hits at 1.
  rewrite Hb, (try_overlap_frame _ _ _ _ _ Hb).
  now destruct (mentions space_id ids && try_overlap fromisoformat ts te b).
Qed.

Lemma existsb_Permutation {A} (f : A -> bool) l l' :
  Permutation l l' -> existsb f l = existsb f l'.
Proof.
  intros Hp. destruct (existsb f l) eqn:H1; symmetry.
  - apply existsb_exists in H1. destruct H1 as (x & Hin & Hx).
    apply existsb_exists. exists x. split; [ | assumption].
    now apply (Permutation_in _ Hp).
  - destruct (existsb f l') eqn:H2; [ | reflexivity].
    apply existsb_exists in H2. destruct H2 as (x & Hin & Hx).
    assert (H : existsb f l = true).
    { apply existsb_exists. exists x. split; [ | assumption].
      now apply (Permutation_in _ (Permutation_sym Hp)). }
    congruence.
Qed.

(** When the identifier fields of every record merge, the verdict does not
    depend on the order of the reservations. *)
Theorem space_is_free_order_independent
        space_id start_time end_time bookings bookings' :
  Permutation bookings bookings' ->
  Forall merges bookings ->
  fst (space_is_free fromisoformat space_id start_time end_time bookings')
  = fst (space_is_free fromisoformat space_id start_time end_time bookings).
Proof.
  intros Hp Hall. rewrite !space_is_free_fst.
  destruct (parse fromisoformat start_time) as [ts | ]; [ | reflexivity].
  destruct (parse fromisoformat end_time) as [te | ]; [ | reflexivity].
  simpl. rewrite !scan_all_merge; try assumption.
  - now rewrite (existsb_Permutation _ _ _ Hp).
  - apply Forall_forall. intros b Hin. rewrite Forall_forall in Hall.
    apply Hall. now apply (Permutation_in _ (Permutation_sym Hp)).
Qed.

End CheckerFacts.

(** ** The checker on concrete reservations *)

Lemma space_is_free_overlap_iff_witness :
  exists free,
    fst (space_is_free iso_parse (SStr "r1")
                       "2024-01-15T08:30:00" "2024-01-15T17:00:00" [r1_morning])
    = Returned free
    /\ (free = false <->
        exists b bs be, In b [r1_morning] /\ plain_times iso_parse b bs be
                        /\ 63840904200000000 < wall be
                        /\ 63840934800000000 > wall bs)
    /\ (forall b bs be,
           [r1_morning] = [b] -> plain_times iso_parse b bs be ->
           63840934800000000 = wall bs \/ 63840904200000000 = wall be ->
           free = true).
Proof.
  apply (space_is_free_overlap_iff iso_parse (SStr "r1")
           "2024-01-15T08:30:00" "2024-01-15T17:00:00"
           (mkdt 63840904200000000 None) (mkdt 63840934800000000 None)
           [r1_morning]); try reflexivity.
  intros b [<- | []]. split.
  - exists ["r1"], r1_morning. split; [reflexivity | now left].
  - eexists _, _. exists "2024-01-15T08:00:00", "2024-01-15T12:00:00".
    repeat split; reflexivity.
Defined.

Lemma unrelated_reservation_is_ignored_witness :
  fst (space_is_free iso_parse (SStr "r2")
                     "2024-01-15T08:30:00" "2024-01-15T17:00:00" ([] ++ r1_morning :: []))
  = fst (space_is_free iso_parse (SStr "r2")
                       "2024-01-15T08:30:00" "2024-01-15T17:00:00" ([] ++ [])).
Proof.
  apply (unrelated_reservation_is_ignored iso_parse (SStr "r2")).
  exists ["r1"], r1_morning. split; [reflexivity | ].
  simpl. intros [H | []]. discriminate H.
Defined.

Lemma malformed_reservation_is_ignored_witness :
  fst (space_is_free iso_parse (SStr "r1")
                     "2024-01-15T08:30:00" "2024-01-15T17:00:00" ([] ++ r1_garbled :: []))
  = fst (space_is_free iso_parse (SStr "r1")
                       "2024-01-15T08:30:00" "2024-01-15T17:00:00" ([] ++ []))
  /\ (forall ts te,
        iso_parse "2024-01-15T08:30:00" = Some ts ->
        iso_parse "2024-01-15T17:00:00" = Some te ->
        fst (space_is_free iso_parse (SStr "r1")
                           "2024-01-15T08:30:00" "2024-01-15T17:00:00" [r1_garbled])
        = Returned true).
Proof.
  apply (malformed_reservation_is_ignored iso_parse (SStr "r1") _ _ [] r1_garbled []
           ValueError).
  - exists ["r1"], r1_garbled. split; [reflexivity | now left].
  - reflexivity.
Defined.

Lemma unmergeable_reservation_raises_witness :
  fst (space_is_free iso_parse (SStr "r2")
                     "2024-01-15T08:30:00" "2024-01-15T17:00:00"
                     ([] ++ null_spaces :: [r1_morning]))
  = Raised (if truthy (SStr "r1") then AttributeError else TypeError).
Proof.
  apply (unmergeable_reservation_raises iso_parse (SStr "r2") _ _ [] null_spaces
           [r1_morning] (SStr "r1")).
  - reflexivity.
  - exact I.
  - reflexivity.
Defined.

(** C10, as stated, fails: 'spaces' holds a dict, 'space' is present (null),
    and the record is stepped over like any record of another resource. *)
Lemma dict_spaces_is_stepped_over :
  b_spaces dict_spaces = Some (VDict ["r7"])
  /\ b_space dict_spaces = Some SNone
  /\ fst (space_is_free iso_parse (SStr "r1")
                        "2024-01-15T08:30:00" "2024-01-15T17:00:00" [dict_spaces])
     = Returned true.
Proof. repeat split. Qed.

(** C3 on the code: a three-day reservation of r1 in the trailing-Z form,
    around a window of r1 written without offset, as [run] writes it.  The
    comparison of the naive window with the aware reservation raises
    TypeError inside the try, and the resource is reported free. *)
Theorem utc_marker_reservation_is_not_seen :
  booking_times iso_parse r1_three_days_utc
  = Returned (mkdt 63840787200000000 (Some 0), mkdt 63841046400000000 (Some 0))
  /\ fst (space_is_free iso_parse (SStr "r1")
                        "2024-01-15T08:30:00" "2024-01-15T17:00:00"
                        [r1_three_days_utc])
     = Returned true.
Proof. split; reflexivity. Qed.

(** The same reservation is seen once the window carries an offset. *)
Example utc_marker_reservation_seen_by_aware_window :
  fst (space_is_free iso_parse (SStr "r1")
                     "2024-01-15T08:30:00+11:00" "2024-01-15T17:00:00+11:00"
                     [r1_three_days_utc])
  = Returned false.
Proof. reflexivity. Qed.

(** C9 on the code: the list under 'spaces' of a record that also has a
    'space' is longer after the call. *)
Theorem space_is_free_grows_spaces_list :
  snd (space_is_free iso_parse (SStr "r2")
                     "2024-01-15T08:30:00" "2024-01-15T17:00:00" [r1_both_fields])
  = [mkbooking (Some (VList [SStr "r1"; SStr "r1"])) (Some (SStr "r1"))
               (str_field "2024-01-15T08:00:00") (str_field "2024-01-15T12:00:00")]
  /\ snd (space_is_free iso_parse (SStr "r2")
                        "2024-01-15T08:30:00" "2024-01-15T17:00:00" [r1_both_fields])
     <> [r1_both_fields].
Proof. split; [reflexivity | discriminate]. Qed.

(** * Properties of the booking loop *)

Section BookerFacts.

Variable fromisoformat : string -> option datetime.
Variable world : Type.
Variable session_get : world -> string -> string -> get_reply * world.
Variable session_post : world -> payload -> post_reply * world.

Lemma prepend_prepend {A} t1 t2 (x : A * world * list event) :
  prepend t1 (prepend t2 x) = prepend (t1 ++ t2) x.
Proof. destruct x as [[a w] t]. simpl. now rewrite app_assoc. Qed.

Lemma prepend_nil {A} (x : A * world * list event) : prepend [] x = x.
Proof. now destruct x as [[a w] t]. Qed.

(** [book_space] sends one request, logs what the reply calls for, and
    returns the space id exactly when the reply is a 200. *)
Lemma book_space_eq self space_id start_time end_time w :
  book_space session_post self space_id start_time end_time w =
  let data := mkpayload start_time end_time [space_id] (user_id self) (venue_id self) in
  let (reply, w1) := session_post w data in
  (if accepted reply then RSpace space_id else RFalse, w1,
   EvPost data reply :: book_log reply).
Proof.
  unfold book_space, bind, post, log, emit. cbv zeta.
  destruct (session_post w _) as [reply w1].
  destruct reply as [msg | status_code errors]; [reflexivity | ].
  unfold accepted, book_log.
  destruct (status_code =? 200); [reflexivity | ].
  destruct (status_code =? 422); [ | reflexivity].
  now destruct errors.
Qed.

(** One iteration of the loop of [run]. *)
Lemma try_spaces_cons self start_dt end_dt i space_id space_name rest bookings w :
  try_spaces fromisoformat session_post self start_dt end_dt i
             ((space_id, space_name) :: rest) bookings w =
  let (free, bookings') :=
    space_is_free fromisoformat (SStr space_id) start_dt end_dt bookings in
  match free with
  | Raised e => (Raise e, w, [trying self i space_name; EvCheck space_id (Raised e)])
  | Returned false =>
      prepend [trying self i space_name; EvCheck space_id (Returned false);
               EvLog "occupied"]
              (try_spaces fromisoformat session_post self start_dt end_dt (S i)
                          rest bookings' w)
  | Returned true =>
      let data := mkpayload start_dt end_dt [space_id] (user_id self) (venue_id self) in
      let (reply, w1) := session_post w data in
      let t := ([trying self i space_name; EvCheck space_id (Returned true);
                 EvLog ("booking " ++ space_name ++ "..."); EvPost data reply]
                ++ book_log reply)%list in
      if accepted reply && ret_truthy (RSpace space_id)
      then (Return (RSpace space_id, "booked " ++ space_name), w1,
            (t ++ [EvLog ("booked " ++ space_name)])%list)
      else prepend (t ++ [EvLog "failed"])%list
                   (try_spaces fromisoformat session_post self start_dt end_dt (S i)
                               rest bookings' w1)
  end.
Proof.
  cbn [try_spaces]. unfold bind at 1. unfold log at 1, emit at 1.
  destruct (space_is_free fromisoformat (SStr space_id) start_dt end_dt bookings)
    as [[[ | ] | e] bookings'].
  - unfold bind at 1. unfold emit at 1. unfold bind at 1. unfold log at 1, emit at 1.
    unfold bind at 1. rewrite book_space_eq. cbv zeta.
    destruct (session_post w _) as [reply w1].
    destruct (accepted reply); cbn [andb].
    + destruct (ret_truthy (RSpace space_id)) eqn:Ht.
      * unfold bind, log, emit, ret. cbn. rewrite <- ?app_assoc. reflexivity.
      * unfold bind at 1. unfold log at 1, emit at 1.
        destruct (try_spaces _ _ _ _ _ _ _ _ _) as [[f w2] t2].
        cbn. rewrite <- ?app_assoc. reflexivity.
    + cbn [ret_truthy]. unfold bind at 1. unfold log at 1, emit at 1.
      destruct (try_spaces _ _ _ _ _ _ _ _ _) as [[f w2] t2].
      cbn. rewrite <- ?app_assoc. reflexivity.
  - unfold bind at 1. unfold emit at 1. unfold bind at 1. unfold log at 1, emit at 1.
    destruct (try_spaces _ _ _ _ _ _ _ _ _) as [[f w2] t2]. reflexivity.
  - unfold bind, emit, ret. reflexivity.
Qed.

Lemma and_then_prepend t (x : flow (list booking) * world * list event) k :
  and_then (prepend t x) k = prepend t (and_then x k).
Proof.
  destruct x as [[[bookings1 | r | e] w1] t1]; simpl; try reflexivity.
  destruct (k bookings1 w1) as [[f w2] t2]. simpl. now rewrite app_assoc.
Qed.

(** The loop over [pre ++ rest] is the loop over [pre] and, when that falls
    through, the loop over [rest] from where it stopped. *)
Lemma try_spaces_app self start_dt end_dt pre rest :
  forall i bookings w,
    try_spaces fromisoformat session_post self start_dt end_dt i (pre ++ rest)
               bookings w =
    and_then (try_spaces fromisoformat session_post self start_dt end_dt i pre
                         bookings w)
             (try_spaces fromisoformat session_post self start_dt end_dt
                         (i + List.length pre) rest).
Proof.
  induction pre as [ | [space_id space_name] pre IH]; intros i bookings w.
  - simpl. rewrite Nat.add_0_r.
    now destruct (try_spaces _ _ _ _ _ _ rest bookings w) as [[f w1] t1].
  - rewrite <- app_comm_cons, !try_spaces_cons.
    replace (i + List.length ((space_id, space_name) :: pre))%nat
      with (S i + List.length pre)%nat by (simpl; lia).
    destruct (space_is_free _ _ _ _ _) as [[[ | ] | e] bookings']; cbv zeta.
    + destruct (session_post w _) as [reply w1].
      destruct (accepted reply && ret_truthy (RSpace space_id)); [reflexivity | ].
      now rewrite IH, and_then_prepend.
    + now rewrite IH, and_then_prepend.
    + reflexivity.
Qed.

(** [run]: the fetch, then the loop, then the verdict. *)
Lemma run_eq self date start_time end_time w :
  run fromisoformat session_get session_post self date start_time end_time w =
  let '(fetched, w0, t0) := get_bookings session_get self date w in
  match fetched with
  | None => (Returned (RFalse, "couldn't get bookings"), w0, t0)
  | Some bookings =>
      let '(f, w1, t1) :=
        try_spaces fromisoformat session_post self
                   (date ++ "T" ++ start_time) (date ++ "T" ++ end_time)
                   0 (spaces self) bookings w0 in
      let t := (t0 ++ EvLog (str_nat (List.length bookings) ++ " bookings found") :: t1)%list in
      match f with
      | Return r => (Returned r, w1, t)
      | Raise e => (Raised e, w1, t)
      | Next _ =>
          (Returned (RFalse,
                     "all " ++ str_nat (List.length (spaces self)) ++ " spaces taken"),
           w1, (t ++ [EvLog "no spaces available"])%list)
      end
  end.
Proof.
  unfold run. cbv zeta. unfold bind at 1.
  destruct (get_bookings session_get self date w) as [[[bookings | ] w0] t0].
  - unfold bind at 1. unfold log at 1, emit at 1. unfold bind at 1.
    destruct (try_spaces _ _ _ _ _ _ _ _ _) as [[[bookings1 | r | e] w1] t1];
      unfold bind, log, emit, ret; cbn; rewrite <- ?app_assoc, ?app_nil_r;
      reflexivity.
  - unfold ret. now rewrite app_nil_r.
Qed.

Lemma get_bookings_failed self date w reply w0 :
  session_get w (date ++ "T00:00:00") (date ++ "T23:59:59.999") = (reply, w0) ->
  fetch_failed reply ->
  exists t, get_bookings session_get self date w = (None, w0, t)
            /\ checks t = [] /\ posted t = [].
Proof.
  intros Hget Hfail. unfold get_bookings, bind, get. rewrite Hget.
  destruct reply as [msg | status_code body]; simpl in Hfail.
  - eexists. split; [reflexivity | split; reflexivity].
  - destruct (status_code =? 200) eqn:H200.
    + destruct Hfail as [Hne | [msg ->]].
      * apply Z.eqb_eq in H200. contradiction.
      * eexists. split; [reflexivity | split; reflexivity].
    + destruct (status_code =? 401); eexists;
        (split; [reflexivity | split; reflexivity]).
Qed.

(** C4: when the reservation fetch fails (a transport error, any status
    other than 200, 401 included, or an exception while the reply is read),
    [run] returns its fetch-failed result, in the world the GET left, and no
    candidate was checked or sent a booking. *)
Theorem run_fetch_failed self date start_time end_time w reply w0 :
  session_get w (date ++ "T00:00:00") (date ++ "T23:59:59.999") = (reply, w0) ->
  fetch_failed reply ->
  exists t,
    run fromisoformat session_get session_post self date start_time end_time w
    = (Returned (RFalse, "couldn't get bookings"), w0, t)
    /\ checks t = [] /\ posted t = [].
Proof.
  intros Hget Hfail.
  destruct (get_bookings_failed self date w reply w0 Hget Hfail) as (t & Hg & Hc & Hp).
  exists t. rewrite run_eq, Hg. auto.
Qed.

Lemma checks_app t1 t2 : checks (t1 ++ t2) = (checks t1 ++ checks t2)%list.
Proof. apply flat_map_app. Qed.

Lemma posted_app t1 t2 : posted (t1 ++ t2) = (posted t1 ++ posted t2)%list.
Proof. apply flat_map_app. Qed.

Lemma checks_cons ev t : checks (ev :: t) = (checks [ev] ++ checks t)%list.
Proof. apply (checks_app [ev] t). Qed.

Lemma posted_cons ev t : posted (ev :: t) = (posted [ev] ++ posted t)%list.
Proof. apply (posted_app [ev] t). Qed.

Lemma checks_Log msg t : checks (EvLog msg :: t) = checks t.
Proof. reflexivity. Qed.

Lemma checks_trying self i space_name t :
  checks (trying self i space_name :: t) = checks t.
Proof. reflexivity. Qed.

Lemma checks_Post data reply t : checks (EvPost data reply :: t) = checks t.
Proof. reflexivity. Qed.

Lemma checks_Check space_id r t :
  checks (EvCheck space_id r :: t) = space_id :: checks t.
Proof. reflexivity. Qed.

Lemma checks_nil : checks [] = [].
Proof. reflexivity. Qed.

Lemma posted_Log msg t : posted (EvLog msg :: t) = posted t.
Proof. reflexivity. Qed.

Lemma posted_trying self i space_name t :
  posted (trying self i space_name :: t) = posted t.
Proof. reflexivity. Qed.

Lemma posted_Check space_id r t : posted (EvCheck space_id r :: t) = posted t.
Proof. reflexivity. Qed.

Lemma posted_Post data reply t :
  posted (EvPost data reply :: t) = (p_spaces data ++ posted t)%list.
Proof. reflexivity. Qed.

Lemma posted_nil : posted [] = [].
Proof. reflexivity. Qed.

Lemma checks_book_log reply : checks (book_log reply) = [].
Proof.
  destruct reply as [msg | status_code errors]; [reflexivity | ].
  unfold book_log. destruct (status_code =? 200); [reflexivity | ].
  destruct (status_code =? 422); [now destruct errors | reflexivity].
Qed.

Lemma posted_book_log reply : posted (book_log reply) = [].
Proof.
  destruct reply as [msg | status_code errors]; [reflexivity | ].
  unfold book_log. destruct (status_code =? 200); [reflexivity | ].
  destruct (status_code =? 422); [now destruct errors | reflexivity].
Qed.

Create Rewrite HintDb trace.
#[local] Hint Rewrite checks_app posted_app checks_Log checks_trying checks_Post
     checks_Check checks_nil posted_Log posted_trying posted_Check posted_Post
     posted_nil checks_book_log posted_book_log app_nil_r : trace.

(** Membership in a trace written with [::] and [++]. *)
Ltac in_trace :=
  repeat (simpl; rewrite ?in_app_iff); tauto.

(** Brings [checks] and [posted] of a trace to a flat list. *)
Ltac trace_norm :=
  autorewrite with trace; cbn [p_spaces app]; rewrite <- ?app_assoc; cbn [app].

(** A candidate that is free and whose submission is not acknowledged hands
    the loop over to the candidates after it. *)
Lemma try_spaces_failed_booking
      self start_dt end_dt i pre space_id space_name rest
      bookings w bookings1 w1 t1 bookings2 reply w2 :
  try_spaces fromisoformat session_post self start_dt end_dt i pre bookings w
  = (Next bookings1, w1, t1) ->
  space_is_free fromisoformat (SStr space_id) start_dt end_dt bookings1
  = (Returned true, bookings2) ->
  session_post w1 (mkpayload start_dt end_dt [space_id] (user_id self) (venue_id self))
  = (reply, w2) ->
  accepted reply = false ->
  try_spaces fromisoformat session_post self start_dt end_dt i
             (pre ++ (space_id, space_name) :: rest) bookings w
  = prepend (t1 ++ [trying self (i + List.length pre) space_name;
                    EvCheck space_id (Returned true);
                    EvLog ("booking " ++ space_name ++ "...");
                    EvPost (mkpayload start_dt end_dt [space_id]
                                    (user_id self) (venue_id self)) reply]
                ++ book_log reply ++ [EvLog "failed"])
            (try_spaces fromisoformat session_post self start_dt end_dt
                        (S (i + List.length pre)) rest bookings2 w2).
Proof.
  intros Hpre Hfree Hpost Hrej.
  rewrite try_spaces_app, Hpre. cbn [and_then].
  rewrite try_spaces_cons, Hfree. cbv zeta. rewrite Hpost, Hrej. cbn [andb].
  rewrite prepend_prepend. f_equal; rewrite <- ?app_assoc; reflexivity.
Qed.

(** A candidate with a non-empty id that is free and whose submission is
    acknowledged ends the loop: the world is the one the POST left and the
    trace stops at the confirmation. *)
Lemma try_spaces_first_success
      self start_dt end_dt i pre space_id space_name rest
      bookings w bookings1 w1 t1 bookings2 reply w2 :
  try_spaces fromisoformat session_post self start_dt end_dt i pre bookings w
  = (Next bookings1, w1, t1) ->
  space_is_free fromisoformat (SStr space_id) start_dt end_dt bookings1
  = (Returned true, bookings2) ->
  session_post w1 (mkpayload start_dt end_dt [space_id] (user_id self) (venue_id self))
  = (reply, w2) ->
  accepted reply = true ->
  space_id <> "" ->
  try_spaces fromisoformat session_post self start_dt end_dt i
             (pre ++ (space_id, space_name) :: rest) bookings w
  = (Return (RSpace space_id, "booked " ++ space_name), w2,
     (t1 ++ [trying self (i + List.length pre) space_name;
             EvCheck space_id (Returned true);
             EvLog ("booking " ++ space_name ++ "...");
             EvPost (mkpayload start_dt end_dt [space_id]
                             (user_id self) (venue_id self)) reply;
             EvLog ("booked " ++ space_name)])%list).
Proof.
  intros Hpre Hfree Hpost Hok Hid.
  rewrite try_spaces_app, Hpre. cbn [and_then].
  rewrite try_spaces_cons, Hfree. cbv zeta. rewrite Hpost, Hok.
  assert (Ht : ret_truthy (RSpace space_id) = true).
  { simpl. apply negb_true_iff. now apply String.eqb_neq. }
  rewrite Ht. cbn [andb prepend]. f_equal. f_equal.
  destruct reply as [msg | status_code errors]; [discriminate | ].
  simpl in Hok. unfold book_log. now rewrite Hok.
Qed.

(** The fetch checks no candidate and submits nothing. *)
Lemma get_bookings_quiet self date w fetched w0 t0 :
  get_bookings session_get self date w = (fetched, w0, t0) ->
  checks t0 = [] /\ posted t0 = [].
Proof.
  unfold get_bookings, bind, get.
  destruct (session_get w _ _) as [reply w'].
  destruct reply as [msg | status_code body].
  - intros H. inversion H. split; reflexivity.
  - destruct (status_code =? 200).
    + destruct body as [msg | [ | | l]]; intros H; inversion H; split; reflexivity.
    + destruct (status_code =? 401); intros H; inversion H; split; reflexivity.
Qed.

(** With a non-empty id, the first acknowledged submission is the result of
    [run], and nothing happens after its confirmation is logged. *)
Lemma run_stops_at_first_success
      self date start_time end_time pre space_id space_name rest
      w bookings w0 t0 bookings1 w1 t1 bookings2 reply w2 :
  get_bookings session_get self date w = (Some bookings, w0, t0) ->
  spaces self = (pre ++ (space_id, space_name) :: rest)%list ->
  try_spaces fromisoformat session_post self
             (date ++ "T" ++ start_time) (date ++ "T" ++ end_time) 0 pre bookings w0
  = (Next bookings1, w1, t1) ->
  space_is_free fromisoformat (SStr space_id)
                (date ++ "T" ++ start_time) (date ++ "T" ++ end_time) bookings1
  = (Returned true, bookings2) ->
  session_post w1 (mkpayload (date ++ "T" ++ start_time) (date ++ "T" ++ end_time)
                             [space_id] (user_id self) (venue_id self))
  = (reply, w2) ->
  accepted reply = true ->
  space_id <> "" ->
  exists t,
    run fromisoformat session_get session_post self date start_time end_time w
    = (Returned (RSpace space_id, "booked " ++ space_name), w2, t)
    /\ checks t = (checks t1 ++ [space_id])%list
    /\ posted t = (posted t1 ++ [space_id])%list.
Proof.
  intros Hget Hsp Hpre Hfree Hpost Hok Hid.
  rewrite run_eq, Hget, Hsp.
  rewrite (try_spaces_first_success _ _ _ _ _ _ _ _ _ _ _ _ _ _ _ _
             Hpre Hfree Hpost Hok Hid).
  eexists. split; [reflexivity | ].
  destruct (get_bookings_quiet _ _ _ _ _ _ Hget) as [Hc Hp].
  rewrite !checks_app, !posted_app, Hc, Hp.
  rewrite checks_cons, posted_cons, !checks_app, !posted_app.
  split; reflexivity.
Qed.

(** C6: a candidate that is free and whose booking attempt fails (a 422, any
    other status than 200, or an exception of the request) does not end the
    run: the loop goes on with the candidates after it, from the world the
    failed request left, and the result of [run] is the one they yield. *)
Theorem booking_failure_is_local
        self date start_time end_time pre space_id space_name rest
        w bookings w0 t0 bookings1 w1 t1 bookings2 reply w2 f w3 t3 :
  get_bookings session_get self date w = (Some bookings, w0, t0) ->
  spaces self = (pre ++ (space_id, space_name) :: rest)%list ->
  try_spaces fromisoformat session_post self
             (date ++ "T" ++ start_time) (date ++ "T" ++ end_time) 0 pre bookings w0
  = (Next bookings1, w1, t1) ->
  space_is_free fromisoformat (SStr space_id)
                (date ++ "T" ++ start_time) (date ++ "T" ++ end_time) bookings1
  = (Returned true, bookings2) ->
  session_post w1 (mkpayload (date ++ "T" ++ start_time) (date ++ "T" ++ end_time)
                             [space_id] (user_id self) (venue_id self))
  = (reply, w2) ->
  accepted reply = false ->
  try_spaces fromisoformat session_post self
             (date ++ "T" ++ start_time) (date ++ "T" ++ end_time)
             (S (List.length pre)) rest bookings2 w2
  = (f, w3, t3) ->
  exists t,
    run fromisoformat session_get session_post self date start_time end_time w
    = (verdict self f, w3, t)
    /\ checks t = (checks t1 ++ space_id :: checks t3)%list
    /\ posted t = (posted t1 ++ space_id :: posted t3)%list.
Proof.
  intros Hget Hsp Hpre Hfree Hpost Hrej Hrest.
  destruct (get_bookings_quiet _ _ _ _ _ _ Hget) as [Hc Hp].
  pose proof (try_spaces_failed_booking _ _ _ _ _ _ space_name rest _ _ _ _ _ _ _ _
                Hpre Hfree Hpost Hrej) as Hloop.
  rewrite <- Hsp in Hloop. cbn [Nat.add] in Hloop. rewrite Hrest in Hloop.
  cbn [prepend] in Hloop.
  rewrite run_eq, Hget, Hloop.
  destruct f as [bookings3 | r | e]; eexists; (split; [reflexivity | ]);
    trace_norm; rewrite Hc, Hp; split; reflexivity.
Qed.

(** When no check raises and no submission is acknowledged, the loop falls
    through after checking every candidate, in order, and submitting for
    each at most as often as it is listed. *)
Lemma try_spaces_none_acknowledged self start_dt end_dt candidates :
  forall i bookings w f w' t,
    try_spaces fromisoformat session_post self start_dt end_dt i candidates
               bookings w = (f, w', t) ->
    (forall space_id r, In (EvCheck space_id r) t -> exists v, r = Returned v) ->
    (forall data reply, In (EvPost data reply) t -> accepted reply = false) ->
    (exists bookings', f = Next bookings')
    /\ checks t = map fst candidates
    /\ forall space_id,
        (count_occ string_dec (posted t) space_id
         <= count_occ string_dec (map fst candidates) space_id)%nat.
Proof.
  induction candidates as [ | [sid name] rest IH]; intros i bookings w f w' t Hrun Hchk Hpost.
  - inversion Hrun; subst. split; [eauto | split; [reflexivity | ]].
    intros x. simpl. lia.
  - rewrite try_spaces_cons in Hrun.
    destruct (space_is_free _ _ _ _ _) as [[[ | ] | e] bookings'].
    + cbv zeta in Hrun. destruct (session_post w _) as [reply w1].
      destruct (try_spaces _ _ _ _ _ _ rest _ _) as [[f2 w2] t2] eqn:Hrec.
      assert (Hrej : accepted reply = false).
      { apply (Hpost (mkpayload start_dt end_dt [sid] (user_id self) (venue_id self))).
        destruct (accepted reply && ret_truthy (RSpace sid));
          cbn [prepend] in Hrun; injection Hrun as _ _ <-; in_trace. }
      rewrite Hrej in Hrun. cbn [andb prepend] in Hrun.
      injection Hrun as <- <- <-.
      destruct (IH _ _ _ _ _ _ Hrec) as (Hf & Hc & Hp).
      * intros x r Hin. apply (Hchk x r). in_trace.
      * intros d r Hin. apply (Hpost d r). in_trace.
      * split; [assumption | ]. trace_norm. rewrite Hc.
        split; [reflexivity | ]. intros x. specialize (Hp x).
        cbn [map fst count_occ]. destruct (string_dec sid x); lia.
    + destruct (try_spaces _ _ _ _ _ _ rest _ _) as [[f2 w2] t2] eqn:Hrec.
      cbn [prepend] in Hrun. injection Hrun as <- <- <-.
      destruct (IH _ _ _ _ _ _ Hrec) as (Hf & Hc & Hp).
      * intros x r Hin. apply (Hchk x r). in_trace.
      * intros d r Hin. apply (Hpost d r). in_trace.
      * split; [assumption | ]. trace_norm. rewrite Hc.
        split; [reflexivity | ]. intros x. specialize (Hp x).
        cbn [map fst count_occ]. destruct (string_dec sid x); lia.
    + injection Hrun as <- <- <-.
      destruct (Hchk sid (Raised e)) as [v Hv]; [in_trace | discriminate].
Qed.

(** C5: when the fetch succeeds, every check returns (free or occupied) and
    no submission is acknowledged, [run] returns its exhausted result with
    the number of candidates, having checked every candidate once, in the
    configured order, and submitted a booking for none more than once. *)
Theorem run_exhausted
        self date start_time end_time w bookings w0 t0 res w' t :
  get_bookings session_get self date w = (Some bookings, w0, t0) ->
  run fromisoformat session_get session_post self date start_time end_time w
  = (res, w', t) ->
  (forall space_id r, In (EvCheck space_id r) t -> exists v, r = Returned v) ->
  (forall data reply, In (EvPost data reply) t -> accepted reply = false) ->
  res = Returned (RFalse,
                  "all " ++ str_nat (List.length (spaces self)) ++ " spaces taken")
  /\ checks t = map fst (spaces self)
  /\ (forall space_id,
        (count_occ string_dec (posted t) space_id
         <= count_occ string_dec (map fst (spaces self)) space_id)%nat)
  /\ (NoDup (map fst (spaces self)) ->
      forall space_id,
        In space_id (map fst (spaces self)) ->
        count_occ string_dec (checks t) space_id = 1%nat
        /\ (count_occ string_dec (posted t) space_id <= 1)%nat).
Proof.
  intros Hget Hrun Hchk Hpost.
  destruct (get_bookings_quiet _ _ _ _ _ _ Hget) as [Hc0 Hp0].
  rewrite run_eq, Hget in Hrun.
  destruct (try_spaces _ _ _ _ _ _ _ _ _) as [[f w1] t1] eqn:Hloop.
  assert (Hsub : forall ev, In ev t1 -> In ev t).
  { intros ev Hin. destruct f; inversion Hrun; subst;
      repeat (apply in_or_app; first [ right; simpl; now auto | left ]). }
  destruct (try_spaces_none_acknowledged _ _ _ _ _ _ _ _ _ _ Hloop)
    as ((bookings' & ->) & Hc & Hp).
  { intros x r Hin. apply (Hchk x r). now apply Hsub. }
  { intros d r Hin. apply (Hpost d r). now apply Hsub. }
  inversion Hrun; subst. clear Hrun.
  assert (Hchecks : checks ((t0 ++ EvLog (str_nat (List.length bookings)
                                        ++ " bookings found") :: t1)
                            ++ [EvLog "no spaces available"])
                    = map fst (spaces self)).
  { rewrite !checks_app, checks_cons, Hc0, Hc. cbn. apply app_nil_r. }
  assert (Hposted : posted ((t0 ++ EvLog (str_nat (List.length bookings)
                                        ++ " bookings found") :: t1)
                            ++ [EvLog "no spaces available"])
                    = posted t1).
  { rewrite !posted_app, posted_cons, Hp0. cbn. apply app_nil_r. }
  rewrite Hchecks, Hposted.
  split; [reflexivity | split; [reflexivity | split; [assumption | ]]].
  intros Hnodup x Hin. split.
  - now apply NoDup_count_occ'.
  - specialize (Hp x). rewrite (proj1 (NoDup_count_occ' string_dec _) Hnodup x Hin) in Hp.
    exact Hp.
Qed.

(** ** Further properties of the booking loop *)

Lemma free_checks_app t1 t2 :
  free_checks (t1 ++ t2) = (free_checks t1 ++ free_checks t2)%list.
Proof. apply flat_map_app. Qed.

Lemma gets_app t1 t2 : gets (t1 ++ t2) = (gets t1 ++ gets t2)%list.
Proof. apply flat_map_app. Qed.

Lemma acknowledged_app t1 t2 :
  acknowledged (t1 ++ t2) = (acknowledged t1 ++ acknowledged t2)%list.
Proof. apply flat_map_app. Qed.

Lemma only_logs_silent t :
  only_logs t ->
  checks t = [] /\ posted t = [] /\ free_checks t = [] /\ gets t = []
  /\ acknowledged t = [].
Proof.
  induction 1 as [ | ev t [msg ->] _ IH]; [now repeat split | exact IH].
Qed.

Lemma book_log_only_logs reply : only_logs (book_log reply).
Proof.
  destruct reply as [msg | status_code errors]; unfold book_log, only_logs.
  - repeat constructor. now exists ("error: " ++ msg).
  - destruct (status_code =? 200); [constructor | ].
    destruct (status_code =? 422).
    + destruct errors; repeat constructor; eexists; reflexivity.
    + repeat constructor. eexists; reflexivity.
Qed.

Lemma book_log_accepted reply : accepted reply = true -> book_log reply = [].
Proof.
  destruct reply as [msg | status_code errors]; [discriminate | ].
  simpl. now intros ->.
Qed.

(** Induction on what the loop of [run] does: it runs out of candidates,
    a check raises, a candidate is occupied, a booking is acknowledged and
    recognised, or an attempt is counted as failed. *)
Lemma try_spaces_trace_ind
      self start_dt end_dt
      (P : list (string * string) -> flow (list booking) -> list event -> Prop) :
  (forall bookings, P [] (Next bookings) []) ->
  (forall space_id space_name rest i e,
      P ((space_id, space_name) :: rest) (Raise e)
        [trying self i space_name; EvCheck space_id (Raised e)]) ->
  (forall space_id space_name rest i f t,
      P rest f t ->
      P ((space_id, space_name) :: rest) f
        ([trying self i space_name; EvCheck space_id (Returned false);
          EvLog "occupied"] ++ t)%list) ->
  (forall space_id space_name rest i reply,
      accepted reply = true -> space_id <> "" ->
      P ((space_id, space_name) :: rest)
        (Return (RSpace space_id, "booked " ++ space_name))
        [trying self i space_name; EvCheck space_id (Returned true);
         EvLog ("booking " ++ space_name ++ "...");
         EvPost (mkpayload start_dt end_dt [space_id] (user_id self) (venue_id self))
                reply;
         EvLog ("booked " ++ space_name)]) ->
  (forall space_id space_name rest i reply f t,
      accepted reply = false \/ space_id = "" ->
      P rest f t ->
      P ((space_id, space_name) :: rest) f
        ([trying self i space_name; EvCheck space_id (Returned true);
          EvLog ("booking " ++ space_name ++ "...");
          EvPost (mkpayload start_dt end_dt [space_id] (user_id self) (venue_id self))
                 reply]
           ++ book_log reply ++ [EvLog "failed"] ++ t)%list) ->
  forall candidates i bookings w f w' t,
    try_spaces fromisoformat session_post self start_dt end_dt i candidates
               bookings w = (f, w', t) ->
    P candidates f t.
Proof.
  intros Hnil Hraise Hocc Hbooked Hfailed.
  induction candidates as [ | [sid name] rest IH]; intros i bookings w f w' t Hrun.
  - injection Hrun as <- _ <-. apply Hnil.
  - rewrite try_spaces_cons in Hrun.
    destruct (space_is_free _ _ _ _ _) as [[[ | ] | e] bookings'].
    + cbv zeta in Hrun. destruct (session_post w _) as [reply w1].
      destruct (accepted reply) eqn:Hacc; cbn [andb] in Hrun.
      * destruct (ret_truthy (RSpace sid)) eqn:Ht.
        -- injection Hrun as <- _ <-.
           rewrite (book_log_accepted _ Hacc). apply Hbooked; [assumption | ].
           intros ->. discriminate Ht.
        -- destruct (try_spaces _ _ _ _ _ _ rest _ _) as [[f2 w2] t2] eqn:Hrec.
           cbn [prepend] in Hrun. injection Hrun as <- _ <-.
           rewrite <- !app_assoc. apply Hfailed; [ | now apply IH in Hrec].
           right. simpl in Ht. apply negb_false_iff in Ht.
           now apply String.eqb_eq in Ht.
      * destruct (try_spaces _ _ _ _ _ _ rest _ _) as [[f2 w2] t2] eqn:Hrec.
        cbn [prepend] in Hrun. injection Hrun as <- _ <-.
        rewrite <- !app_assoc. apply Hfailed; [now left | now apply IH in Hrec].
    + destruct (try_spaces _ _ _ _ _ _ rest _ _) as [[f2 w2] t2] eqn:Hrec.
      cbn [prepend] in Hrun. injection Hrun as <- _ <-.
      apply Hocc. now apply IH in Hrec.
    + injection Hrun as <- _ <-. apply Hraise.
Qed.

Lemma free_checks_book_log reply : free_checks (book_log reply) = [].
Proof. apply (only_logs_silent _ (book_log_only_logs reply)). Qed.

Lemma gets_book_log reply : gets (book_log reply) = [].
Proof. apply (only_logs_silent _ (book_log_only_logs reply)). Qed.

Lemma acknowledged_book_log reply : acknowledged (book_log reply) = [].
Proof. apply (only_logs_silent _ (book_log_only_logs reply)). Qed.

Lemma free_checks_Log msg t : free_checks (EvLog msg :: t) = free_checks t.
Proof. reflexivity. Qed.

Lemma free_checks_trying self i space_name t :
  free_checks (trying self i space_name :: t) = free_checks t.
Proof. reflexivity. Qed.

Lemma free_checks_Post data reply t :
  free_checks (EvPost data reply :: t) = free_checks t.
Proof. reflexivity. Qed.

Lemma free_checks_Check_free space_id t :
  free_checks (EvCheck space_id (Returned true) :: t) = space_id :: free_checks t.
Proof. reflexivity. Qed.

Lemma free_checks_Check_occupied space_id t :
  free_checks (EvCheck space_id (Returned false) :: t) = free_checks t.
Proof. reflexivity. Qed.

Lemma free_checks_Check_raised space_id e t :
  free_checks (EvCheck space_id (Raised e) :: t) = free_checks t.
Proof. reflexivity. Qed.

Lemma gets_Log msg t : gets (EvLog msg :: t) = gets t.
Proof. reflexivity. Qed.

Lemma gets_trying self i space_name t :
  gets (trying self i space_name :: t) = gets t.
Proof. reflexivity. Qed.

Lemma gets_Post data reply t : gets (EvPost data reply :: t) = gets t.
Proof. reflexivity. Qed.

Lemma gets_Check space_id r t : gets (EvCheck space_id r :: t) = gets t.
Proof. reflexivity. Qed.

Lemma acknowledged_Log msg t : acknowledged (EvLog msg :: t) = acknowledged t.
Proof. reflexivity. Qed.

Lemma acknowledged_trying self i space_name t :
  acknowledged (trying self i space_name :: t) = acknowledged t.
Proof. reflexivity. Qed.

Lemma acknowledged_Check space_id r t :
  acknowledged (EvCheck space_id r :: t) = acknowledged t.
Proof. reflexivity. Qed.

Lemma acknowledged_Post data reply t :
  acknowledged (EvPost data reply :: t)
  = ((if accepted reply then p_spaces data else []) ++ acknowledged t)%list.
Proof. reflexivity. Qed.

#[local] Hint Rewrite free_checks_app gets_app acknowledged_app
     free_checks_book_log gets_book_log acknowledged_book_log
     free_checks_Log free_checks_trying free_checks_Post free_checks_Check_free
     free_checks_Check_occupied free_checks_Check_raised
     gets_Log gets_trying gets_Post gets_Check
     acknowledged_Log acknowledged_trying acknowledged_Check acknowledged_Post
  : trace.

(** The loop checks the candidates in their order, without skipping or
    repeating any: the ids checked are a prefix of the candidates, and all
    of them when the loop falls through. *)
Lemma loop_checks_prefix self start_dt end_dt candidates i bookings w f w' t :
  try_spaces fromisoformat session_post self start_dt end_dt i candidates
             bookings w = (f, w', t) ->
  (exists rest, map fst candidates = (checks t ++ rest)%list)
  /\ (forall bookings', f = Next bookings' -> checks t = map fst candidates).
Proof.
  apply (try_spaces_trace_ind self start_dt end_dt
           (fun candidates f t =>
              (exists rest, map fst candidates = (checks t ++ rest)%list)
              /\ (forall bookings', f = Next bookings' ->
                                    checks t = map fst candidates))).
  - intros bk. split; [now exists [] | reflexivity].
  - intros sid name rest j e. split; [now exists (map fst rest) | discriminate].
  - intros sid name rest j f0 t0 [[tl Htl] Hn]. trace_norm. split.
    + exists tl. cbn [map fst]. now rewrite Htl.
    + intros bk Hf. cbn [map fst]. now rewrite (Hn bk Hf).
  - intros sid name rest j reply _ _. split; [now exists (map fst rest) | discriminate].
  - intros sid name rest j reply f0 t0 _ [[tl Htl] Hn]. trace_norm. split.
    + exists tl. cbn [map fst]. now rewrite Htl.
    + intros bk Hf. cbn [map fst]. now rewrite (Hn bk Hf).
Qed.

(** The loop submits a booking for exactly the candidates it found free. *)
Lemma loop_posted_free self start_dt end_dt candidates i bookings w f w' t :
  try_spaces fromisoformat session_post self start_dt end_dt i candidates
             bookings w = (f, w', t) ->
  posted t = free_checks t /\ gets t = [].
Proof.
  apply (try_spaces_trace_ind self start_dt end_dt
           (fun _ _ t => posted t = free_checks t /\ gets t = [])).
  - intros bk. now split.
  - intros sid name rest j e. now split.
  - intros sid name rest j f0 t0 [Hp Hg]. trace_norm. now split.
  - intros sid name rest j reply _ _. now split.
  - intros sid name rest j reply f0 t0 _ [Hp Hg]. trace_norm. rewrite Hp. now split.
Qed.

(** Every request of the loop is for one candidate, with the window, the
    user and the venue the loop was given. *)
Lemma loop_payloads self start_dt end_dt candidates i bookings w f w' t :
  try_spaces fromisoformat session_post self start_dt end_dt i candidates
             bookings w = (f, w', t) ->
  forall data reply,
    In (EvPost data reply) t ->
    exists space_id space_name,
      In (space_id, space_name) candidates
      /\ data = mkpayload start_dt end_dt [space_id] (user_id self) (venue_id self).
Proof.
  apply (try_spaces_trace_ind self start_dt end_dt
           (fun candidates _ t =>
              forall data reply,
                In (EvPost data reply) t ->
                exists space_id space_name,
                  In (space_id, space_name) candidates
                  /\ data = mkpayload start_dt end_dt [space_id]
                                      (user_id self) (venue_id self))).
  - intros bk data reply [].
  - intros sid name rest j e data reply [H | [H | []]]; discriminate H.
  - intros sid name rest j f0 t0 IH data reply [H | [H | [H | H]]];
      try discriminate H.
    destruct (IH data reply H) as (s0 & n0 & Hin & Hd).
    exists s0, n0. split; [now right | assumption].
  - intros sid name rest j reply0 _ _ data reply
           [H | [H | [H | [H | [H | []]]]]]; try discriminate H.
    injection H as <- _. exists sid, name. split; [now left | reflexivity].
  - intros sid name rest j reply0 f0 t0 _ IH data reply
           [H | [H | [H | [H | H]]]]; try discriminate H.
    + injection H as <- _. exists sid, name. split; [now left | reflexivity].
    + cbn [app] in H. apply in_app_or in H. simpl in H.
      destruct H as [H | [H | H]].
      * pose proof (book_log_only_logs reply0) as Hl. unfold only_logs in Hl.
        rewrite Forall_forall in Hl. destruct (Hl _ H) as [msg Hmsg].
        discriminate Hmsg.
      * discriminate H.
      * destruct (IH data reply H) as (s0 & n0 & Hin & Hd).
        exists s0, n0. split; [now right | assumption].
Qed.

(** How the loop ends: a returned id is the non-empty id of a candidate
    whose submission, the last request sent, was acknowledged; an exception
    is the one the last check raised. *)
Lemma loop_last_event self start_dt end_dt candidates i bookings w f w' t :
  try_spaces fromisoformat session_post self start_dt end_dt i candidates
             bookings w = (f, w', t) ->
  match f with
  | Next _ => True
  | Return (r, details) =>
      exists space_id space_name reply t0,
        In (space_id, space_name) candidates
        /\ r = RSpace space_id /\ details = "booked " ++ space_name
        /\ space_id <> "" /\ accepted reply = true
        /\ t = (t0 ++ [EvPost (mkpayload start_dt end_dt [space_id]
                                         (user_id self) (venue_id self)) reply;
                       EvLog ("booked " ++ space_name)])%list
  | Raise e =>
      exists space_id space_name t0,
        In (space_id, space_name) candidates
        /\ t = (t0 ++ [EvCheck space_id (Raised e)])%list
  end.
Proof.
  apply (try_spaces_trace_ind self start_dt end_dt
           (fun candidates f t =>
              match f with
              | Next _ => True
              | Return (r, details) =>
                  exists space_id space_name reply t0,
                    In (space_id, space_name) candidates
                    /\ r = RSpace space_id /\ details = "booked " ++ space_name
                    /\ space_id <> "" /\ accepted reply = true
                    /\ t = (t0 ++ [EvPost (mkpayload start_dt end_dt [space_id]
                                                     (user_id self) (venue_id self))
                                          reply;
                                   EvLog ("booked " ++ space_name)])%list
              | Raise e =>
                  exists space_id space_name t0,
                    In (space_id, space_name) candidates
                    /\ t = (t0 ++ [EvCheck space_id (Raised e)])%list
              end)).
  - intros bk. exact I.
  - intros sid name rest j e. exists sid, name, [trying self j name].
    split; [now left | reflexivity].
  - intros sid name rest j [bk | [r d] | e] t0 IH; [exact I | | ].
    + destruct IH as (s0 & n0 & reply & t1 & Hin & Hr & Hd & Hne & Hacc & Ht).
      exists s0, n0, reply. eexists. repeat split; try eassumption; [now right | ].
      rewrite Ht. now rewrite app_assoc.
    + destruct IH as (s0 & n0 & t1 & Hin & Ht).
      exists s0, n0. eexists. split; [now right | ].
      rewrite Ht. now rewrite app_assoc.
  - intros sid name rest j reply Hacc Hne.
    exists sid, name, reply,
      [trying self j name; EvCheck sid (Returned true);
       EvLog ("booking " ++ name ++ "...")].
    repeat split; try assumption. now left.
  - intros sid name rest j reply0 [bk | [r d] | e] t0 _ IH; [exact I | | ].
    + destruct IH as (s0 & n0 & reply & t1 & Hin & Hr & Hd & Hne & Hacc & Ht).
      exists s0, n0, reply. eexists. repeat split; try eassumption; [now right | ].
      rewrite Ht. now rewrite !app_assoc.
    + destruct IH as (s0 & n0 & t1 & Hin & Ht).
      exists s0, n0. eexists. split; [now right | ].
      rewrite Ht. now rewrite !app_assoc.
Qed.

(** When no candidate has the empty id, the submissions acknowledged during
    the loop are the one it returns, if it returns one, and none otherwise. *)
Lemma loop_acknowledged self start_dt end_dt candidates i bookings w f w' t :
  try_spaces fromisoformat session_post self start_dt end_dt i candidates
             bookings w = (f, w', t) ->
  Forall (fun c => fst c <> "") candidates ->
  acknowledged t = match f with
                   | Return (RSpace space_id, _) => [space_id]
                   | _ => []
                   end.
Proof.
  apply (try_spaces_trace_ind self start_dt end_dt
           (fun candidates f t =>
              Forall (fun c => fst c <> "") candidates ->
              acknowledged t = match f with
                               | Return (RSpace space_id, _) => [space_id]
                               | _ => []
                               end)).
  - reflexivity.
  - reflexivity.
  - intros sid name rest j f0 t0 IH Hall. trace_norm. apply IH.
    now inversion Hall.
  - intros sid name rest j reply Hacc _ _. trace_norm. now rewrite Hacc.
  - intros sid name rest j reply f0 t0 Hfail IH Hall. inversion Hall; subst.
    trace_norm. destruct Hfail as [Hrej | ->]; [ | contradiction].
    rewrite Hrej. cbn [app]. now apply IH.
Qed.

(** [get_bookings] sends one GET, for the whole day, then logs at most. *)
Lemma get_bookings_trace self date w :
  exists logs,
    snd (get_bookings session_get self date w)
    = EvGet (date ++ "T00:00:00") (date ++ "T23:59:59.999")
            (fst (session_get w (date ++ "T00:00:00") (date ++ "T23:59:59.999")))
      :: logs
    /\ only_logs logs
    /\ snd (fst (get_bookings session_get self date w))
       = snd (session_get w (date ++ "T00:00:00") (date ++ "T23:59:59.999")).
Proof.
  unfold get_bookings, bind, get, only_logs.
  destruct (session_get w _ _) as [reply w0].
  destruct reply as [msg | status_code body].
  - eexists. split; [reflexivity | split; [ | reflexivity]].
    repeat constructor. eexists; reflexivity.
  - destruct (status_code =? 200).
    + destruct body as [msg | [ | | l]]; eexists;
        (split; [reflexivity | split; [ | reflexivity]]);
        repeat constructor; eexists; reflexivity.
    + destruct (status_code =? 401); eexists;
        (split; [reflexivity | split; [ | reflexivity]]);
        repeat constructor; eexists; reflexivity.
Qed.

(** [get_bookings] sends exactly one request, the GET for the day from
    00:00:00 to 23:59:59.999, and returns a list exactly when the reply is a
    200 whose body is an object: the list under 'bookings', or the empty
    list when the key is absent.  A null under 'bookings' is returned as it
    is, which [run] takes for a failed fetch. *)
Theorem get_bookings_fetches_the_day self date w :
  let reply := fst (session_get w (date ++ "T00:00:00") (date ++ "T23:59:59.999")) in
  gets (snd (get_bookings session_get self date w))
  = [(date ++ "T00:00:00", date ++ "T23:59:59.999")]
  /\ posted (snd (get_bookings session_get self date w)) = []
  /\ forall l,
      fst (fst (get_bookings session_get self date w)) = Some l
      <-> reply = GetResponse 200 (GetBodyObject (BkList l))
          \/ (reply = GetResponse 200 (GetBodyObject BkAbsent) /\ l = []).
Proof.
  cbv zeta. destruct (get_bookings_trace self date w) as (logs & Ht & Hlogs & _).
  destruct (only_logs_silent _ Hlogs) as (_ & Hp & _ & Hg & _).
  rewrite Ht. split; [ | split].
  - change (gets (EvGet ?a ?b ?r :: logs)) with ((a, b) :: gets logs).
    now rewrite Hg.
  - change (posted (EvGet ?a ?b ?r :: logs)) with (posted logs). exact Hp.
  - clear Ht Hlogs Hp Hg. intros l. unfold get_bookings, bind, get.
    destruct (session_get w _ _) as [reply w0]. cbn [fst].
    destruct reply as [msg | status_code body].
    + split; [discriminate | intros [H | [H _]]; discriminate H].
    + destruct (status_code =? 200) eqn:H200.
      * apply Z.eqb_eq in H200. subst status_code.
        destruct body as [msg | [ | | l0]]; cbn.
        -- split; [discriminate | intros [H | [H _]]; discriminate H].
        -- split.
           ++ intros H. injection H as <-. now right.
           ++ intros [H | [_ ->]]; [discriminate H | reflexivity].
        -- split; [discriminate | intros [H | [H _]]; discriminate H].
        -- split.
           ++ intros H. injection H as <-. now left.
           ++ intros [H | [H _]]; [now injection H as -> | discriminate H].
      * apply Z.eqb_neq in H200.
        split.
        -- intros H. exfalso. destruct (status_code =? 401); discriminate H.
        -- intros [H | [H _]]; injection H as H _; contradiction.
Qed.

(** The shape of a run: the GET and its log lines, then either the
    fetch-failed result, or the loop over the candidates and the verdict. *)
Lemma run_shape self date start_time end_time w :
  exists logs,
    only_logs logs
    /\ ((fst (fst (run fromisoformat session_get session_post self date
                       start_time end_time w))
         = Returned (RFalse, "couldn't get bookings")
         /\ snd (run fromisoformat session_get session_post self date
                     start_time end_time w)
            = EvGet (date ++ "T00:00:00") (date ++ "T23:59:59.999")
                    (fst (session_get w (date ++ "T00:00:00")
                                      (date ++ "T23:59:59.999")))
              :: logs)
        \/ exists bookings w0 f w1 t1,
            try_spaces fromisoformat session_post self
                       (date ++ "T" ++ start_time) (date ++ "T" ++ end_time)
                       0 (spaces self) bookings w0 = (f, w1, t1)
            /\ fst (fst (run fromisoformat session_get session_post self date
                             start_time end_time w)) = verdict self f
            /\ snd (run fromisoformat session_get session_post self date
                        start_time end_time w)
               = (EvGet (date ++ "T00:00:00") (date ++ "T23:59:59.999")
                        (fst (session_get w (date ++ "T00:00:00")
                                          (date ++ "T23:59:59.999")))
                  :: logs ++ t1
                     ++ match f with
                        | Next _ => [EvLog "no spaces available"]
                        | _ => []
                        end)%list).
Proof.
  rewrite run_eq.
  destruct (get_bookings_trace self date w) as (logs & Ht & Hlogs & _).
  destruct (get_bookings session_get self date w) as [[fetched w0] t0].
  cbn [snd] in Ht. subst t0. destruct fetched as [bookings | ].
  - destruct (try_spaces _ _ _ _ _ _ _ _ _) as [[f w1] t1] eqn:Hloop.
    exists (logs ++ [EvLog (str_nat (List.length bookings) ++ " bookings found")])%list.
    split.
    + apply Forall_app. split; [exact Hlogs | ].
      repeat constructor. eexists; reflexivity.
    + right. exists bookings, w0, f, w1, t1. split; [exact Hloop | ].
      destruct f; cbn [fst snd verdict]; (split; [reflexivity | ]);
        cbn [app]; rewrite <- ?app_assoc; cbn [app]; rewrite ?app_nil_r;
        reflexivity.
  - exists logs. split; [exact Hlogs | ]. left. now split.
Qed.

Lemma gets_Get a b reply t : gets (EvGet a b reply :: t) = (a, b) :: gets t.
Proof. reflexivity. Qed.

Lemma checks_Get a b reply t : checks (EvGet a b reply :: t) = checks t.
Proof. reflexivity. Qed.

Lemma posted_Get a b reply t : posted (EvGet a b reply :: t) = posted t.
Proof. reflexivity. Qed.

Lemma free_checks_Get a b reply t :
  free_checks (EvGet a b reply :: t) = free_checks t.
Proof. reflexivity. Qed.

Lemma acknowledged_Get a b reply t :
  acknowledged (EvGet a b reply :: t) = acknowledged t.
Proof. reflexivity. Qed.

#[local] Hint Rewrite gets_Get checks_Get posted_Get free_checks_Get
     acknowledged_Get : trace.

(** Lines 232-236: a run fetches the reservations once, for the whole day
    of [date], before it does anything else. *)
Theorem run_fetches_once self date start_time end_time w :
  exists reply t,
    snd (run fromisoformat session_get session_post self date start_time end_time w)
    = EvGet (date ++ "T00:00:00") (date ++ "T23:59:59.999") reply :: t
    /\ gets t = []
    /\ reply = fst (session_get w (date ++ "T00:00:00") (date ++ "T23:59:59.999")).
Proof.
  destruct (run_shape self date start_time end_time w) as (logs & Hlogs & H).
  destruct (only_logs_silent _ Hlogs) as (_ & _ & _ & Hg & _).
  destruct H as [[_ Ht] | (bk & w0 & f & w1 & t1 & Hloop & _ & Ht)];
    rewrite Ht; eexists _, _; (split; [reflexivity | split; [ | reflexivity]]).
  - exact Hg.
  - destruct (loop_posted_free _ _ _ _ _ _ _ _ _ _ Hloop) as [_ Hg1].
    rewrite !gets_app, Hg, Hg1. now destruct f.
Qed.

(** Lines 239-242: a run checks the candidates in the configured order,
    none skipped and none twice: the ids checked are a prefix of the keys of
    the candidate mapping. *)
Theorem run_checks_in_order self date start_time end_time w :
  exists rest,
    map fst (spaces self)
    = (checks (snd (run fromisoformat session_get session_post self date
                        start_time end_time w)) ++ rest)%list.
Proof.
  destruct (run_shape self date start_time end_time w) as (logs & Hlogs & H).
  destruct (only_logs_silent _ Hlogs) as (Hc & _).
  destruct H as [[_ Ht] | (bk & w0 & f & w1 & t1 & Hloop & _ & Ht)]; rewrite Ht.
  - exists (map fst (spaces self)). trace_norm. now rewrite Hc.
  - destruct (loop_checks_prefix _ _ _ _ _ _ _ _ _ _ Hloop) as [[rest Hrest] _].
    exists rest. trace_norm. rewrite Hc, Hrest. cbn [app].
    now destruct f; trace_norm.
Qed.

(** Lines 242-244: a booking is submitted for exactly the candidates the
    checker reported free, in that order; an occupied candidate, or one
    whose check raised, is never submitted. *)
Theorem run_books_only_free self date start_time end_time w :
  posted (snd (run fromisoformat session_get session_post self date
                   start_time end_time w))
  = free_checks (snd (run fromisoformat session_get session_post self date
                          start_time end_time w)).
Proof.
  destruct (run_shape self date start_time end_time w) as (logs & Hlogs & H).
  destruct (only_logs_silent _ Hlogs) as (_ & Hp & Hf & _).
  destruct H as [[_ Ht] | (bk & w0 & f & w1 & t1 & Hloop & _ & Ht)]; rewrite Ht.
  - trace_norm. now rewrite Hp, Hf.
  - destruct (loop_posted_free _ _ _ _ _ _ _ _ _ _ Hloop) as [Hpf _].
    trace_norm. rewrite Hp, Hf, Hpf. now destruct f.
Qed.

(** Lines 194-199 and 228-229: every booking a run submits is for a single
    configured candidate, over the window [date]T[start_time] to
    [date]T[end_time], for the configured user and venue. *)
Theorem run_payloads self date start_time end_time w data reply :
  In (EvPost data reply)
     (snd (run fromisoformat session_get session_post self date
               start_time end_time w)) ->
  exists space_id space_name,
    In (space_id, space_name) (spaces self)
    /\ data = mkpayload (date ++ "T" ++ start_time) (date ++ "T" ++ end_time)
                        [space_id] (user_id self) (venue_id self).
Proof.
  destruct (run_shape self date start_time end_time w) as (logs & Hlogs & H).
  assert (Hno : ~ In (EvPost data reply) logs).
  { intros Hin. unfold only_logs in Hlogs. rewrite Forall_forall in Hlogs.
    destruct (Hlogs _ Hin) as [msg Hmsg]. discriminate Hmsg. }
  destruct H as [[_ Ht] | (bk & w0 & f & w1 & t1 & Hloop & _ & Ht)]; rewrite Ht.
  - intros [Hin | Hin]; [discriminate Hin | contradiction].
  - intros [Hin | Hin]; [discriminate Hin | ].
    apply in_app_or in Hin. destruct Hin as [Hin | Hin]; [contradiction | ].
    apply in_app_or in Hin. destruct Hin as [Hin | Hin].
    + exact (loop_payloads _ _ _ _ _ _ _ _ _ _ Hloop data reply Hin).
    + destruct f; simpl in Hin; try contradiction.
      destruct Hin as [Hin | []]. discriminate Hin.
Qed.

(** Lines 244-247: when a run returns a space id, that id is a non-empty
    key of the candidate mapping, the detail is 'booked ' and its display
    name, and the last request of the run is the booking of that candidate,
    answered 200. *)
Theorem run_success_sound self date start_time end_time w space_id details :
  fst (fst (run fromisoformat session_get session_post self date
                start_time end_time w))
  = Returned (RSpace space_id, details) ->
  exists space_name reply t0,
    In (space_id, space_name) (spaces self)
    /\ details = "booked " ++ space_name
    /\ space_id <> ""
    /\ accepted reply = true
    /\ snd (run fromisoformat session_get session_post self date
                start_time end_time w)
       = (t0 ++ [EvPost (mkpayload (date ++ "T" ++ start_time)
                                   (date ++ "T" ++ end_time)
                                   [space_id] (user_id self) (venue_id self))
                        reply;
                 EvLog ("booked " ++ space_name)])%list.
Proof.
  destruct (run_shape self date start_time end_time w) as (logs & Hlogs & H).
  destruct H as [[Hr Ht] | (bk & w0 & f & w1 & t1 & Hloop & Hr & Ht)];
    rewrite Hr, Ht; [discriminate | ].
  pose proof (loop_last_event _ _ _ _ _ _ _ _ _ _ Hloop) as Hlast.
  destruct f as [bk' | [r d] | e]; cbn [verdict]; try discriminate.
  intros Heq. injection Heq as -> ->.
  destruct Hlast as (sid & name & reply & t0 & Hin & Hsid & Hd & Hne & Hacc & Ht1).
  injection Hsid as <-. exists name, reply. eexists.
  repeat split; try assumption. rewrite Ht1, app_nil_r.
  rewrite app_comm_cons, !app_assoc. reflexivity.
Qed.


(** Lines 233-254: the four results of a run that returns: the fetch
    failed, every candidate was passed over, or a configured candidate was
    booked and the detail names it. *)
Theorem run_result_cases self date start_time end_time w r :
  fst (fst (run fromisoformat session_get session_post self date
                start_time end_time w))
  = Returned r ->
  r = (RFalse, "couldn't get bookings")
  \/ r = (RFalse, "all " ++ str_nat (List.length (spaces self)) ++ " spaces taken")
  \/ exists space_id space_name,
      In (space_id, space_name) (spaces self)
      /\ r = (RSpace space_id, "booked " ++ space_name).
Proof.
  destruct (run_shape self date start_time end_time w) as (logs & Hlogs & H).
  destruct H as [[Hr Ht] | (bk & w0 & f & w1 & t1 & Hloop & Hr & Ht)]; rewrite Hr.
  - intros Heq. injection Heq as <-. now left.
  - pose proof (loop_last_event _ _ _ _ _ _ _ _ _ _ Hloop) as Hlast.
    destruct f as [bk' | [r0 d] | e0]; cbn [verdict]; try discriminate.
    + intros Heq. injection Heq as <-. right. now left.
    + intros Heq. injection Heq as <-.
      destruct Hlast as (sid & name & reply & t0 & Hin & -> & -> & _).
      right. right. now exists sid, name.
Qed.

(** Lines 208-209 and 245-247: when no candidate has the empty string as
    its id, the bookings the service acknowledged during a run are the one
    the run returns, if it returns one, and none otherwise: a run never
    leaves an acknowledged booking unreported, and never books twice. *)
Theorem run_acknowledged self date start_time end_time w :
  Forall (fun c => fst c <> "") (spaces self) ->
  acknowledged (snd (run fromisoformat session_get session_post self date
                         start_time end_time w))
  = match fst (fst (run fromisoformat session_get session_post self date
                        start_time end_time w)) with
    | Returned (RSpace space_id, _) => [space_id]
    | _ => []
    end.
Proof.
  intros Hall.
  destruct (run_shape self date start_time end_time w) as (logs & Hlogs & H).
  destruct (only_logs_silent _ Hlogs) as (_ & _ & _ & _ & Ha).
  destruct H as [[Hr Ht] | (bk & w0 & f & w1 & t1 & Hloop & Hr & Ht)];
    rewrite Hr, Ht.
  - trace_norm. now rewrite Ha.
  - pose proof (loop_acknowledged _ _ _ _ _ _ _ _ _ _ Hloop Hall) as Hack.
    trace_norm. rewrite Ha, Hack. cbn [app].
    destruct f as [bk' | [[ | sid] d] | e0]; cbn [verdict]; trace_norm;
      reflexivity.
Qed.

(** Lines 132-133 and 242: when the start or the end of the window does not
    parse, a run that fetched the reservations and has a candidate raises
    ValueError at the first check, before any booking is submitted. *)
Theorem run_unparsable_window
        self date start_time end_time w bookings w0 t0 :
  get_bookings session_get self date w = (Some bookings, w0, t0) ->
  spaces self <> [] ->
  fromisoformat (date ++ "T" ++ start_time) = None
  \/ fromisoformat (date ++ "T" ++ end_time) = None ->
  fst (fst (run fromisoformat session_get session_post self date
                start_time end_time w))
  = Raised ValueError
  /\ posted (snd (run fromisoformat session_get session_post self date
                      start_time end_time w)) = []
  /\ snd (fst (run fromisoformat session_get session_post self date
                   start_time end_time w)) = w0.
Proof.
  intros Hget Hne Hbad.
  destruct (get_bookings_quiet _ _ _ _ _ _ Hget) as [_ Hp0].
  rewrite run_eq, Hget.
  destruct (spaces self) as [ | [sid name] rest]; [contradiction | ].
  rewrite try_spaces_cons.
  assert (Hsif : space_is_free fromisoformat (SStr sid)
                   (date ++ "T" ++ start_time) (date ++ "T" ++ end_time) bookings
                 = (Raised ValueError, bookings)).
  { unfold space_is_free, parse.
    destruct (fromisoformat (date ++ "T" ++ start_time)); [ | reflexivity].
    destruct Hbad as [Hbad | Hbad]; [discriminate Hbad | ]. now rewrite Hbad. }
  rewrite Hsif. cbn [fst snd]. split; [reflexivity | split; [ | reflexivity]].
  trace_norm. now rewrite Hp0.
Qed.

End BookerFacts.

(** ** The booking loop against scripted servers *)

Lemma run_fetch_failed_witness :
  exists t,
    run iso_parse server_get server_post desks "2024-01-15" "08:30:00" "17:00:00"
        (mkserver (GetResponse 401 (GetBodyError "")) [ok200])
    = (Returned (RFalse, "couldn't get bookings"),
       mkserver (GetResponse 401 (GetBodyError "")) [ok200], t)
    /\ checks t = [] /\ posted t = [].
Proof.
  apply (run_fetch_failed iso_parse server server_get server_post desks
           "2024-01-15" "08:30:00" "17:00:00"
           (mkserver (GetResponse 401 (GetBodyError "")) [ok200])
           (GetResponse 401 (GetBodyError ""))).
  - reflexivity.
  - left. lia.
Defined.

(** Desk A is reserved, the bookings of Desk B and Desk C are refused. *)
Lemma run_exhausted_witness :
  exists res w' t,
    run iso_parse server_get server_post desks "2024-01-15" "08:30:00" "17:00:00"
        (mkserver (listing [r1_morning]) [rejected; PostResponse 500 RejQuiet])
    = (res, w', t)
    /\ res = Returned (RFalse, "all 3 spaces taken")
    /\ checks t = ["r1"; "r2"; "r3"]
    /\ (forall space_id,
          (count_occ string_dec (posted t) space_id
           <= count_occ string_dec ["r1"; "r2"; "r3"] space_id)%nat)
    /\ (NoDup ["r1"; "r2"; "r3"] ->
        forall space_id,
          In space_id ["r1"; "r2"; "r3"] ->
          count_occ string_dec (checks t) space_id = 1%nat
          /\ (count_occ string_dec (posted t) space_id <= 1)%nat).
Proof.
  eexists _, _, _. split; [vm_compute; reflexivity | ].
  eapply (run_exhausted iso_parse server server_get server_post desks
            "2024-01-15" "08:30:00" "17:00:00"
            (mkserver (listing [r1_morning]) [rejected; PostResponse 500 RejQuiet])).
  - vm_compute. reflexivity.
  - vm_compute. reflexivity.
  - intros space_id r H. simpl in H.
    repeat (destruct H as [H | H]; [try discriminate H; inversion H; eauto | ]).
    destruct H.
  - intros data reply H. simpl in H.
    repeat (destruct H as [H | H]; [try discriminate H; inversion H; reflexivity | ]).
    destruct H.
Defined.

(** Desk A is reserved, the booking of Desk B is refused, Desk C is booked. *)
Lemma booking_failure_is_local_witness :
  exists t1 t3 f w3 t,
    run iso_parse server_get server_post desks "2024-01-15" "08:30:00" "17:00:00"
        (mkserver (listing [r1_morning]) [rejected; ok200])
    = (verdict desks f, w3, t)
    /\ checks t = (checks t1 ++ "r2" :: checks t3)%list
    /\ posted t = (posted t1 ++ "r2" :: posted t3)%list.
Proof.
  eexists _, _, _, _.
  eapply (booking_failure_is_local iso_parse server server_get server_post desks
            "2024-01-15" "08:30:00" "17:00:00"
            [("r1", "Desk A")] "r2" "Desk B" [("r3", "Desk C")]
            (mkserver (listing [r1_morning]) [rejected; ok200])).
  - vm_compute. reflexivity.
  - reflexivity.
  - vm_compute. reflexivity.
  - vm_compute. reflexivity.
  - vm_compute. reflexivity.
  - reflexivity.
  - vm_compute. reflexivity.
Defined.

Example booking_failure_then_success :
  fst (fst (run_scripted desks "2024-01-15"
                         (mkserver (listing [r1_morning]) [rejected; ok200])))
  = Returned (RSpace "r3", "booked Desk C").
Proof. reflexivity. Qed.

(** The example of the specification: Desk A is reserved from 08:00 to
    12:00, Desk B is booked. *)
Example run_books_second_desk :
  fst (fst (run_scripted (mkbooker "venue" "user" [("r1", "Desk A"); ("r2", "Desk B")])
                         "2024-01-15"
                         (mkserver (listing [r1_morning]) [ok200])))
  = Returned (RSpace "r2", "booked Desk B").
Proof. reflexivity. Qed.

(** C2 on the code: the first candidate has the empty string as its id.  Its
    submission is answered 200, [book_space] returns the id, [if result:]
    takes the empty string for False, and the loop goes on to submit, and
    book, the second candidate as well. *)
Theorem empty_id_is_booked_and_passed_over :
  run_scripted unnamed_first "2024-01-15" (mkserver (listing []) [ok200; ok200])
  = (Returned (RSpace "r2", "booked Desk B"),
     mkserver (listing []) [],
     [EvGet "2024-01-15T00:00:00" "2024-01-15T23:59:59.999" (listing []);
      EvLog "0 bookings found";
      EvLog "trying Desk A (1/2)";
      EvCheck "" (Returned true);
      EvLog "booking Desk A...";
      EvPost (mkpayload "2024-01-15T08:30:00" "2024-01-15T17:00:00" [""] "user" "venue")
           ok200;
      EvLog "failed";
      EvLog "trying Desk B (2/2)";
      EvCheck "r2" (Returned true);
      EvLog "booking Desk B...";
      EvPost (mkpayload "2024-01-15T08:30:00" "2024-01-15T17:00:00" ["r2"] "user" "venue")
           ok200;
      EvLog "booked Desk B"]).
Proof. reflexivity. Qed.


(** ** The further properties on concrete runs *)

Lemma space_is_free_verdict_sound_witness :
  (fst (space_is_free iso_parse (SStr "r1")
                      "2024-01-15T08:30:00" "2024-01-15T17:00:00" [r1_morning])
   = Returned false ->
   exists b, In b [r1_morning] /\ blocks (SStr "r1") b
             /\ try_overlap iso_parse (mkdt 63840904200000000 None)
                            (mkdt 63840934800000000 None) b = true)
  /\ (fst (space_is_free iso_parse (SStr "r1")
                         "2024-01-15T08:30:00" "2024-01-15T17:00:00" [r1_morning])
      = Returned true ->
      forall b, In b [r1_morning] ->
                merges b
                /\ ~ (blocks (SStr "r1") b
                      /\ try_overlap iso_parse (mkdt 63840904200000000 None)
                                     (mkdt 63840934800000000 None) b = true)).
Proof.
  apply (space_is_free_verdict_sound iso_parse (SStr "r1")
           "2024-01-15T08:30:00" "2024-01-15T17:00:00"); reflexivity.
Defined.

Lemma mixed_awareness_is_skipped_witness :
  fst (space_is_free iso_parse (SStr "r1")
                     "2024-01-15T08:30:00" "2024-01-15T17:00:00"
                     ([] ++ r1_three_days_utc :: []))
  = fst (space_is_free iso_parse (SStr "r1")
                       "2024-01-15T08:30:00" "2024-01-15T17:00:00" ([] ++ [])).
Proof.
  apply (mixed_awareness_is_skipped iso_parse (SStr "r1")
           "2024-01-15T08:30:00" "2024-01-15T17:00:00"
           (mkdt 63840904200000000 None) (mkdt 63840934800000000 None)
           [] r1_three_days_utc []
           (mkdt 63840787200000000 (Some 0)) (mkdt 63841046400000000 (Some 0))).
  - reflexivity.
  - reflexivity.
  - exists ["r1"], r1_three_days_utc. reflexivity.
  - reflexivity.
  - left. discriminate.
Defined.

Lemma space_is_free_order_independent_witness :
  fst (space_is_free iso_parse (SStr "r1")
                     "2024-01-15T08:30:00" "2024-01-15T17:00:00"
                     [r1_morning; r1_garbled])
  = fst (space_is_free iso_parse (SStr "r1")
                       "2024-01-15T08:30:00" "2024-01-15T17:00:00"
                       [r1_garbled; r1_morning]).
Proof.
  apply (space_is_free_order_independent iso_parse (SStr "r1")
           "2024-01-15T08:30:00" "2024-01-15T17:00:00"
           [r1_garbled; r1_morning] [r1_morning; r1_garbled]).
  - apply perm_swap.
  - repeat constructor.
    + exists ["r1"], r1_garbled. reflexivity.
    + exists ["r1"], r1_morning. reflexivity.
Defined.

Lemma run_payloads_witness :
  exists space_id space_name,
    In (space_id, space_name) (spaces desks)
    /\ mkpayload "2024-01-15T08:30:00" "2024-01-15T17:00:00" ["r2"] "user" "venue"
       = mkpayload ("2024-01-15" ++ "T" ++ "08:30:00")
                   ("2024-01-15" ++ "T" ++ "17:00:00")
                   [space_id] (user_id desks) (venue_id desks).
Proof.
  apply (run_payloads iso_parse server server_get server_post desks
           "2024-01-15" "08:30:00" "17:00:00"
           (mkserver (listing [r1_morning]) [rejected; ok200])
           (mkpayload "2024-01-15T08:30:00" "2024-01-15T17:00:00" ["r2"]
                      "user" "venue")
           rejected).
  vm_compute. do 8 right. left. reflexivity.
Defined.

Lemma run_success_sound_witness :
  exists space_name reply t0,
    In ("r3", space_name) (spaces desks)
    /\ "booked Desk C" = "booked " ++ space_name
    /\ "r3" <> ""
    /\ accepted reply = true
    /\ snd (run iso_parse server_get server_post desks
                "2024-01-15" "08:30:00" "17:00:00"
                (mkserver (listing [r1_morning]) [rejected; ok200]))
       = (t0 ++ [EvPost (mkpayload ("2024-01-15" ++ "T" ++ "08:30:00")
                                   ("2024-01-15" ++ "T" ++ "17:00:00")
                                   ["r3"] (user_id desks) (venue_id desks))
                        reply;
                 EvLog ("booked " ++ space_name)])%list.
Proof.
  apply (run_success_sound iso_parse server server_get server_post desks
           "2024-01-15" "08:30:00" "17:00:00"
           (mkserver (listing [r1_morning]) [rejected; ok200])
           "r3" "booked Desk C").
  reflexivity.
Defined.


Lemma run_result_cases_witness :
  (RSpace "r3", "booked Desk C") = (RFalse, "couldn't get bookings")
  \/ (RSpace "r3", "booked Desk C")
     = (RFalse, "all " ++ str_nat (List.length (spaces desks)) ++ " spaces taken")
  \/ exists space_id space_name,
      In (space_id, space_name) (spaces desks)
      /\ (RSpace "r3", "booked Desk C") = (RSpace space_id, "booked " ++ space_name).
Proof.
  apply (run_result_cases iso_parse server server_get server_post desks
           "2024-01-15" "08:30:00" "17:00:00"
           (mkserver (listing [r1_morning]) [rejected; ok200])).
  reflexivity.
Defined.

Lemma run_acknowledged_witness :
  acknowledged (snd (run iso_parse server_get server_post desks
                         "2024-01-15" "08:30:00" "17:00:00"
                         (mkserver (listing [r1_morning]) [rejected; ok200])))
  = match fst (fst (run iso_parse server_get server_post desks
                        "2024-01-15" "08:30:00" "17:00:00"
                        (mkserver (listing [r1_morning]) [rejected; ok200]))) with
    | Returned (RSpace space_id, _) => [space_id]
    | _ => []
    end.
Proof.
  apply (run_acknowledged iso_parse server server_get server_post desks).
  repeat constructor; discriminate.
Defined.

Lemma run_unparsable_window_witness :
  fst (fst (run iso_parse server_get server_post desks "today" "08:30:00" "17:00:00"
                (mkserver (listing [r1_morning]) [ok200])))
  = Raised ValueError
  /\ posted (snd (run iso_parse server_get server_post desks
                      "today" "08:30:00" "17:00:00"
                      (mkserver (listing [r1_morning]) [ok200]))) = []
  /\ snd (fst (run iso_parse server_get server_post desks
                   "today" "08:30:00" "17:00:00"
                   (mkserver (listing [r1_morning]) [ok200])))
     = mkserver (listing [r1_morning]) [ok200].
Proof.
  eapply (run_unparsable_window iso_parse server server_get server_post desks
            "today" "08:30:00" "17:00:00"
            (mkserver (listing [r1_morning]) [ok200])).
  - vm_compute. reflexivity.
  - discriminate.
  - left. reflexivity.
Defined.

(** * Properties of the cookie parser *)

Section CookieFacts.

Variable unquote : string -> string.

Lemma lstrip_head p c s : p c = false -> lstrip p (String c s) = String c s.
Proof. intros H. simpl. now rewrite H. Qed.

Lemma rstrip_all p s :
  all_chars (fun c => negb (p c)) s = true -> rstrip p s = s.
Proof.
  induction s as [ | c s IH]; [reflexivity | ]. simpl.
  intros H. apply andb_true_iff in H. destruct H as [Hc Hs].
  apply negb_true_iff in Hc. now rewrite (IH Hs), Hc.
Qed.

Lemma rstrip_app p a b :
  b <> EmptyString -> rstrip p b = b -> rstrip p (a ++ b) = a ++ b.
Proof.
  intros Hne Hb. induction a as [ | c a IH]; [exact Hb | ].
  simpl. rewrite IH.
  assert (Hn : (a ++ b =? "")%string = false).
  { apply String.eqb_neq. destruct a; [exact Hne | discriminate]. }
  rewrite Hn. now rewrite andb_false_r.
Qed.

Lemma all_chars_app p a b :
  all_chars p (a ++ b) = all_chars p a && all_chars p b.
Proof.
  induction a as [ | c a IH]; [reflexivity | ]. simpl.
  now rewrite IH, andb_assoc.
Qed.

Lemma all_chars_impl (p q : ascii -> bool) s :
  (forall c, p c = true -> q c = true) ->
  all_chars p s = true -> all_chars q s = true.
Proof.
  intros Hpq. induction s as [ | c s IH]; [reflexivity | ]. simpl.
  intros H. apply andb_true_iff in H. destruct H as [Hc Hs].
  now rewrite (Hpq c Hc), (IH Hs).
Qed.

(** A piece without semicolon, followed by the separator, is the first
    piece of the split. *)
Lemma split2_piece piece rest :
  all_chars (fun c => negb (Ascii.eqb c ";")) piece = true ->
  split2 ";" " " (piece ++ "; " ++ rest) = piece :: split2 ";" " " rest.
Proof.
  induction piece as [ | c piece IH]; [reflexivity | ].
  intros H. simpl in H. apply andb_true_iff in H. destruct H as [Hc Hp].
  apply negb_true_iff in Hc.
  change (String c piece ++ "; " ++ rest) with (String c (piece ++ "; " ++ rest)).
  assert (Hs : exists c' s'', piece ++ "; " ++ rest = String c' s'').
  { destruct piece; simpl; eauto. }
  destruct Hs as (c' & s'' & Hs).
  cbn [split2]. rewrite Hs, Hc. cbn [andb]. rewrite <- Hs, (IH Hp). reflexivity.
Qed.

Lemma split2_last piece :
  all_chars (fun c => negb (Ascii.eqb c ";")) piece = true ->
  split2 ";" " " piece = [piece].
Proof.
  induction piece as [ | c piece IH]; [reflexivity | ].
  intros H. simpl in H. apply andb_true_iff in H. destruct H as [Hc Hp].
  apply negb_true_iff in Hc. cbn [split2].
  destruct piece as [ | c' s'']; [reflexivity | ].
  rewrite Hc. cbn [andb]. now rewrite (IH Hp).
Qed.

Lemma split2_concat pieces :
  pieces <> [] ->
  Forall (fun x => all_chars (fun c => negb (Ascii.eqb c ";")) x = true) pieces ->
  split2 ";" " " (String.concat "; " pieces) = pieces.
Proof.
  induction pieces as [ | x [ | y ys] IH]; intros Hne Hall.
  - contradiction.
  - inversion Hall; subst. now apply split2_last.
  - inversion Hall; subst.
    change (String.concat "; " (x :: y :: ys))
      with (x ++ "; " ++ String.concat "; " (y :: ys)).
    rewrite split2_piece by assumption. f_equal. apply IH; [discriminate | assumption].
Qed.

Lemma split_first_item k v :
  contains "=" k = false -> split_first "=" (k ++ "=" ++ v) = Some (k, v).
Proof.
  induction k as [ | c k IH]; [reflexivity | ]. simpl.
  intros H. apply orb_false_iff in H. destruct H as [Hc Hk].
  specialize (IH Hk). simpl in IH. now rewrite Hc, IH.
Qed.

Lemma split_first_none s : contains "=" s = false -> split_first "=" s = None.
Proof.
  induction s as [ | c s IH]; [reflexivity | ]. simpl.
  intros H. apply orb_false_iff in H. destruct H as [Hc Hs].
  now rewrite Hc, (IH Hs).
Qed.

(** The header is left as it is by [strip]: it begins and ends with a
    character of an item. *)
Lemma strip_concat p pieces :
  Forall (fun x => x <> EmptyString /\ all_chars (fun c => negb (p c)) x = true)
         pieces ->
  strip p (String.concat "; " pieces) = String.concat "; " pieces.
Proof.
  intros Hall. unfold strip.
  assert (Hl : lstrip p (String.concat "; " pieces) = String.concat "; " pieces).
  { destruct Hall as [ | x xs [Hne Hx] _]; [reflexivity | ].
    destruct x as [ | c x]; [contradiction | ]. simpl in Hx.
    apply andb_true_iff in Hx. destruct Hx as [Hc _]. apply negb_true_iff in Hc.
    destruct xs; simpl; now rewrite Hc. }
  rewrite Hl. clear Hl.
  induction Hall as [ | x xs [Hne Hx] Hxs IH]; [reflexivity | ].
  destruct xs as [ | y ys]; [now apply rstrip_all | ].
  change (String.concat "; " (x :: y :: ys))
    with (x ++ "; " ++ String.concat "; " (y :: ys)).
  apply rstrip_app; [discriminate | ].
  apply (rstrip_app p "; "); [ | exact IH].
  inversion Hxs as [ | ? ? [Hy _] _]; subst.
  destruct y; [contradiction | ]. destruct ys; discriminate.
Qed.

Lemma add_cookie_item d k v :
  contains "=" k = false ->
  add_cookie unquote d (k ++ "=" ++ v) = dict_set k (stored unquote v) d.
Proof. intros Hk. unfold add_cookie. now rewrite (split_first_item _ _ Hk). Qed.

Lemma fold_add_cookie l :
  Forall (fun kv => contains "=" (fst kv) = false) l ->
  forall d,
    fold_left (add_cookie unquote) (map (fun kv => fst kv ++ "=" ++ snd kv) l) d
    = fold_left (fun d kv => dict_set (fst kv) (stored unquote (snd kv)) d) l d.
Proof.
  induction 1 as [ | [k v] l Hk _ IH]; intros d; [reflexivity | ].
  cbn [map fold_left fst snd] in *. rewrite (add_cookie_item _ _ _ Hk). apply IH.
Qed.

Lemma item_chars (q : ascii -> bool) kv :
  (forall c, cookie_char c = true -> q c = true) ->
  q "="%char = true ->
  item_ok kv ->
  all_chars q (fst kv ++ "=" ++ snd kv) = true.
Proof.
  intros Hq Heq (Hk & Hv & _). rewrite all_chars_app. cbn [append all_chars].
  now rewrite (all_chars_impl _ _ _ Hq Hk), (all_chars_impl _ _ _ Hq Hv), Heq.
Qed.

(** A header of items is parsed into the dict its items build, each value
    unquoted when it holds a percent sign. *)
Lemma parse_cookies_header l :
  Forall item_ok l ->
  parse_cookies unquote (cookie_header l)
  = fold_left (fun d kv => dict_set (fst kv) (stored unquote (snd kv)) d) l [].
Proof.
  intros Hall. unfold parse_cookies, cookie_header. cbv zeta.
  destruct l as [ | kv l]; [reflexivity | ].
  set (pieces := map (fun kv => fst kv ++ "=" ++ snd kv) (kv :: l)).
  assert (Hp : forall q : ascii -> bool,
             (forall c, cookie_char c = true -> q c = true) -> q "="%char = true ->
             Forall (fun x => x <> EmptyString /\ all_chars q x = true) pieces).
  { intros q Hq Heq. unfold pieces. apply Forall_map. eapply Forall_impl; [ | exact Hall].
    intros kv0 Hok. split; [ | now apply item_chars].
    destruct (fst kv0); discriminate. }
  rewrite (strip_concat is_space pieces), (strip_concat is_dquote pieces).
  - rewrite split2_concat.
    + unfold pieces. apply fold_add_cookie.
      eapply Forall_impl; [ | exact Hall]. now intros kv0 (_ & _ & H).
    + discriminate.
    + eapply Forall_impl; [ | apply (Hp (fun c => negb (Ascii.eqb c ";")))];
        [now intros x [_ H] | | reflexivity].
      intros c Hc. unfold cookie_char in Hc. now apply andb_true_iff in Hc.
  - apply Hp; [ | reflexivity]. intros c Hc. unfold cookie_char, bare in Hc.
    apply andb_true_iff in Hc. destruct Hc as [Hc _].
    apply andb_true_iff in Hc. now destruct Hc.
  - apply Hp; [ | reflexivity]. intros c Hc. unfold cookie_char, bare in Hc.
    apply andb_true_iff in Hc. destruct Hc as [Hc _].
    apply andb_true_iff in Hc. now destruct Hc.
Qed.

Lemma dict_set_fresh k v d :
  ~ In k (map fst d) -> dict_set k v d = (d ++ [(k, v)])%list.
Proof.
  induction d as [ | [k' v'] d IH]; [reflexivity | ]. simpl. intros H.
  destruct (String.eqb_spec k' k) as [-> | Hne]; [exfalso; auto | ].
  rewrite IH; auto.
Qed.

Lemma fold_dict_set_fresh l :
  forall d,
    NoDup (map fst d ++ map fst l) ->
    fold_left (fun d kv => dict_set (fst kv) (snd kv) d) l d = (d ++ l)%list.
Proof.
  induction l as [ | [k v] l IH]; intros d Hnd.
  - simpl. now rewrite app_nil_r.
  - cbn [fold_left fst snd map] in *.
    rewrite dict_set_fresh.
    + rewrite IH; [now rewrite <- app_assoc | ].
      rewrite map_app. cbn [map fst]. rewrite <- app_assoc. exact Hnd.
    + apply NoDup_remove_2 in Hnd. intros Hin. apply Hnd.
      apply in_or_app. now left.
Qed.

Lemma stored_plain v : contains "%" v = false -> stored unquote v = v.
Proof. intros H. unfold stored. now rewrite H. Qed.

(** Lines 64-77, read back: a header written from items with distinct
    names, [k1=v1; k2=v2; ...], whose names and values hold no whitespace,
    double quote or semicolon, whose names hold no equals sign and whose
    values hold no percent sign, is parsed into exactly these items, in
    order.  A value may hold equals signs. *)
Theorem parse_cookies_round_trip l :
  Forall item_ok l ->
  Forall (fun kv => contains "%" (snd kv) = false) l ->
  NoDup (map fst l) ->
  parse_cookies unquote (cookie_header l) = l.
Proof.
  intros Hok Hpct Hnd. rewrite (parse_cookies_header _ Hok).
  transitivity (fold_left (fun d kv => dict_set (fst kv) (snd kv) d) l []).
  - generalize (@nil (string * string)).
    induction Hpct as [ | [k v] l Hv _ IH]; intros d; [reflexivity | ].
    cbn [fold_left fst snd] in *. rewrite (stored_plain _ Hv).
    inversion Hok; subst. inversion Hnd; subst. now apply IH.
  - now apply (fold_dict_set_fresh l []).
Qed.

Lemma dict_get_set k k' v d :
  dict_get k (dict_set k' v d)
  = if (k' =? k)%string then Some v else dict_get k d.
Proof.
  induction d as [ | [k0 v0] d IH]; [reflexivity | ]. simpl.
  destruct (String.eqb_spec k0 k') as [-> | Hne]; simpl.
  - now destruct (k' =? k)%string.
  - rewrite IH. destruct (String.eqb_spec k0 k) as [-> | Hne']; [ | reflexivity].
    destruct (String.eqb_spec k' k) as [-> | _]; [contradiction | reflexivity].
Qed.

Lemma dict_get_fold k (f : string -> string) l :
  forall d acc,
    dict_get k d = option_map f acc ->
    dict_get k (fold_left (fun d kv => dict_set (fst kv) (f (snd kv)) d) l d)
    = option_map f
        (fold_left (fun acc kv => if (fst kv =? k)%string then Some (snd kv) else acc)
                   l acc).
Proof.
  induction l as [ | [k' v] l IH]; intros d acc Hd; [exact Hd | ].
  cbn [fold_left fst snd]. apply IH. rewrite dict_get_set.
  now destruct (k' =? k)%string.
Qed.

(** Line 75: when a name occurs more than once in the header, the dict
    holds the value of its last item; a name that does not occur is not in
    the dict.  The value is unquoted when it holds a percent sign. *)
Theorem parse_cookies_last_wins l k :
  Forall item_ok l ->
  dict_get k (parse_cookies unquote (cookie_header l))
  = option_map (stored unquote) (last_value k l).
Proof.
  intros Hok. rewrite (parse_cookies_header _ Hok). unfold last_value.
  now apply dict_get_fold.
Qed.

Lemma contains_lstrip c p s :
  contains c s = false -> contains c (lstrip p s) = false.
Proof.
  induction s as [ | a s IH]; [reflexivity | ]. simpl. intros H.
  destruct (p a); [ | exact H].
  apply orb_false_iff in H. now apply IH.
Qed.

Lemma contains_rstrip c p s :
  contains c s = false -> contains c (rstrip p s) = false.
Proof.
  induction s as [ | a s IH]; [reflexivity | ]. simpl. intros H.
  apply orb_false_iff in H. destruct H as [Ha Hs].
  destruct (p a && (rstrip p s =? "")%string); [reflexivity | ].
  simpl. now rewrite Ha, (IH Hs).
Qed.

Lemma split2_cons2 a b c c' s :
  split2 a b (String c (String c' s))
  = if Ascii.eqb c a && Ascii.eqb c' b
    then EmptyString :: split2 a b s
    else cons_head c (split2 a b (String c' s)).
Proof. reflexivity. Qed.

Lemma contains_split2 c a b n :
  forall s,
    (String.length s <= n)%nat ->
    contains c s = false ->
    forall piece, In piece (split2 a b s) -> contains c piece = false.
Proof.
  induction n as [ | n IH]; intros s Hlen Hs piece Hin.
  - destruct s; [ | simpl in Hlen; lia].
    destruct Hin as [<- | []]. reflexivity.
  - destruct s as [ | c0 [ | c' s'']].
    + destruct Hin as [<- | []]. reflexivity.
    + destruct Hin as [<- | []]. exact Hs.
    + rewrite split2_cons2 in Hin. simpl in Hs, Hlen.
      apply orb_false_iff in Hs. destruct Hs as [H0 Hs].
      destruct (Ascii.eqb c0 a && Ascii.eqb c' b).
      * destruct Hin as [<- | Hin]; [reflexivity | ].
        apply orb_false_iff in Hs. destruct Hs as [_ Hs].
        apply (IH s''); [lia | exact Hs | exact Hin].
      * assert (Htail : forall x, In x (split2 a b (String c' s'')) ->
                                  contains c x = false).
        { intros x Hx. apply (IH (String c' s'')); [simpl; lia | exact Hs | exact Hx]. }
        unfold cons_head in Hin.
        destruct (split2 a b (String c' s'')) as [ | h t]; cbn iota in Hin.
        -- destruct Hin as [<- | []]. simpl. now rewrite H0.
        -- destruct Hin as [<- | Hin].
           ++ simpl. rewrite H0. apply Htail. now left.
           ++ apply Htail. now right.
Qed.

(** Line 70: a string without an equals sign yields no cookie at all. *)
Theorem parse_cookies_no_equals cookie_str :
  contains "=" cookie_str = false ->
  parse_cookies unquote cookie_str = [].
Proof.
  intros H. unfold parse_cookies. cbv zeta.
  assert (Hs : contains "=" (strip is_dquote (strip is_space cookie_str)) = false).
  { unfold strip. now repeat (apply contains_rstrip || apply contains_lstrip). }
  pose proof (contains_split2 "=" ";" " " _ _ (Nat.le_refl _) Hs) as Hp.
  assert (Hd : forall pieces d,
             (forall x, In x pieces -> contains "=" x = false) ->
             fold_left (add_cookie unquote) pieces d = d).
  { induction pieces as [ | x xs IH]; intros d Hx; [reflexivity | ].
    cbn [fold_left]. unfold add_cookie at 2.
    rewrite (split_first_none x) by (apply Hx; now left).
    apply IH. intros y Hy. apply Hx. now right. }
  now apply Hd.
Qed.

Lemma append_assoc a b c : (a ++ b) ++ c = a ++ b ++ c.
Proof. induction a as [ | x a IH]; [reflexivity | ]. simpl. now rewrite IH. Qed.

Lemma append_nil_r a : a ++ EmptyString = a.
Proof. induction a as [ | x a IH]; [reflexivity | ]. simpl. now rewrite IH. Qed.

Lemma lstrip_app_all p ws s :
  all_chars p ws = true -> lstrip p (ws ++ s) = lstrip p s.
Proof.
  induction ws as [ | c ws IH]; [reflexivity | ]. simpl. intros H.
  apply andb_true_iff in H. destruct H as [Hc Hws]. now rewrite Hc, IH.
Qed.

Lemma rstrip_all_stripped p ws : all_chars p ws = true -> rstrip p ws = EmptyString.
Proof.
  induction ws as [ | c ws IH]; [reflexivity | ]. simpl. intros H.
  apply andb_true_iff in H. destruct H as [Hc Hws]. now rewrite (IH Hws), Hc.
Qed.

Lemma rstrip_app_all p s ws :
  all_chars p ws = true -> rstrip p (s ++ ws) = rstrip p s.
Proof.
  intros H. induction s as [ | c s IH]; [now apply rstrip_all_stripped | ].
  simpl. now rewrite IH.
Qed.

Lemma rstrip_last p s :
  forall c, p (last_char c s) = false -> rstrip p (String c s) = String c s.
Proof.
  induction s as [ | c' s IH]; intros c H.
  - simpl in *. now rewrite H.
  - change (rstrip p (String c (String c' s)))
      with (let r := rstrip p (String c' s) in
            if p c && (r =? "")%string then EmptyString else String c r).
    cbv zeta. rewrite (IH c' H). simpl. now rewrite andb_false_r.
Qed.

Lemma strip_ends p c s :
  p c = false -> p (last_char c s) = false -> strip p (String c s) = String c s.
Proof.
  intros Hc Hl. unfold strip. rewrite (lstrip_head _ _ _ Hc). now apply rstrip_last.
Qed.

Lemma dquote_not_space s :
  all_chars is_dquote s = true -> all_chars (fun c => negb (is_space c)) s = true.
Proof.
  apply all_chars_impl. intros c Hc. unfold is_dquote in Hc.
  apply Ascii.eqb_eq in Hc. now subst.
Qed.

(** Line 67: whitespace around the string, and double quotes around what
    is left, do not change the result, as long as the string inside begins
    and ends with a character that is neither. *)
Theorem parse_cookies_wrapped ws q s q' ws' :
  all_chars is_space ws = true -> all_chars is_space ws' = true ->
  all_chars is_dquote q = true -> all_chars is_dquote q' = true ->
  ends_bare s = true ->
  parse_cookies unquote (ws ++ q ++ s ++ q' ++ ws') = parse_cookies unquote s.
Proof.
  intros Hws Hws' Hq Hq' Hs. unfold parse_cookies. cbv zeta.
  destruct s as [ | a m]; [discriminate | ]. simpl in Hs.
  apply andb_true_iff in Hs. destruct Hs as [Ha Hl]. unfold bare in Ha, Hl.
  apply andb_true_iff in Ha, Hl. destruct Ha as [Has Haq], Hl as [Hls Hlq].
  apply negb_true_iff in Has, Haq, Hls, Hlq.
  rewrite (strip_ends is_space a m Has Hls), (strip_ends is_dquote a m Haq Hlq).
  f_equal. f_equal.
  assert (Hinner : rstrip is_space (String a m ++ q') = String a m ++ q').
  { destruct q' as [ | x q'].
    - rewrite append_nil_r. now apply rstrip_last.
    - apply rstrip_app; [discriminate | ]. apply rstrip_all.
      now apply dquote_not_space. }
  assert (Hspace : strip is_space (ws ++ q ++ String a m ++ q' ++ ws')
                   = q ++ String a m ++ q').
  { unfold strip. rewrite (lstrip_app_all _ _ _ Hws).
    assert (Hhead : lstrip is_space (q ++ String a m ++ q' ++ ws')
                    = q ++ String a m ++ q' ++ ws').
    { destruct q as [ | x q]; [now apply lstrip_head | ].
      simpl in Hq. apply andb_true_iff in Hq. destruct Hq as [Hx _].
      unfold is_dquote in Hx. apply Ascii.eqb_eq in Hx. subst x.
      now apply lstrip_head. }
    rewrite Hhead.
    replace (q ++ String a m ++ q' ++ ws') with ((q ++ String a m ++ q') ++ ws')
      by (now rewrite !append_assoc).
    rewrite (rstrip_app_all _ _ _ Hws').
    apply rstrip_app; [discriminate | exact Hinner]. }
  rewrite Hspace. unfold strip. rewrite (lstrip_app_all _ _ _ Hq).
  change (String a m ++ q') with (String a (m ++ q')).
  rewrite (lstrip_head is_dquote a (m ++ q') Haq).
  change (String a (m ++ q')) with (String a m ++ q').
  rewrite (rstrip_app_all _ _ _ Hq'). now apply rstrip_last.
Qed.

End CookieFacts.

(** * Properties of the configuration loading *)

Section ConfigFacts.

Variable unquote : string -> string.
Variable J : Type.
Variable json_loads : string -> option J.

(** Lines 48-62: with SKEDDA_COOKIES set in the environment, the token is
    taken from the environment too; when SKEDDA_TOKEN is not set there,
    [token.strip()] raises AttributeError, whatever config.json holds. *)
Theorem load_auth_env_without_token env c :
  getenv env "SKEDDA_COOKIES" = Some c ->
  c <> "" ->
  getenv env "SKEDDA_TOKEN" = None ->
  load_auth unquote env = (Crash AttributeError, []).
Proof.
  intros Hc Hne Ht. unfold load_auth, env_value. rewrite Hc, Ht. simpl.
  destruct (String.eqb_spec c ""); [contradiction | ]. reflexivity.
Qed.

(** Lines 48-56: cookies and token always come from the same place.  With
    a non-empty SKEDDA_COOKIES in the environment config.json is not
    consulted; without it both are read from config.json and SKEDDA_TOKEN
    of the environment is ignored. *)
Theorem load_auth_one_source env :
  (env_set env "SKEDDA_COOKIES" = true ->
   forall config, load_auth unquote (mkenv (getenv env) config) = load_auth unquote env)
  /\ (env_set env "SKEDDA_COOKIES" = false ->
      forall token,
        load_auth unquote (with_var env "SKEDDA_TOKEN" token) = load_auth unquote env).
Proof.
  unfold env_set, load_auth, env_value, with_var. cbn [getenv config_json]. split.
  - intros H config. now rewrite H.
  - intros H token.
    change ("SKEDDA_COOKIES" =? "SKEDDA_TOKEN")%string with false. cbv iota.
    now rewrite H.
Qed.

(** Lines 51-59: [load_auth] exits, with code 1, exactly when
    SKEDDA_COOKIES is unset or empty in the environment and config.json
    cannot be read or lacks one of the two keys. *)
Theorem load_auth_exit_iff env code :
  fst (load_auth unquote env) = Exit code
  <-> code = 1
      /\ env_set env "SKEDDA_COOKIES" = false
      /\ match config_json env with
         | Some config => lookup "SKEDDA_COOKIES" config = None
                          \/ lookup "SKEDDA_TOKEN" config = None
         | None => True
         end.
Proof.
  unfold env_set, load_auth. cbv zeta.
  destruct (value_truthy (env_value env "SKEDDA_COOKIES")) eqn:Hc.
  - split.
    + unfold env_value in *.
      destruct (getenv env "SKEDDA_COOKIES"); [ | discriminate Hc].
      destruct (getenv env "SKEDDA_TOKEN"); discriminate.
    + intros (_ & H & _). discriminate H.
  - destruct (config_json env) as [config | ].
    + destruct (lookup "SKEDDA_COOKIES" config) as [c | ].
      * destruct (lookup "SKEDDA_TOKEN" config) as [t | ].
        -- split.
           ++ destruct c as [[ | | | ] | | ]; try discriminate.
              destruct t as [[ | | | ] | | ]; discriminate.
           ++ intros (_ & _ & [H | H]); discriminate H.
        -- split; [ | now intros (-> & _)]. intros H. injection H as <-. auto.
      * split; [ | now intros (-> & _)]. intros H. injection H as <-. auto.
    + split; [ | now intros (-> & _)]. intros H. injection H as <-. auto.
Qed.

(** Lines 81-89: with a non-empty SKEDDA_SPACES in the environment,
    config.json is not consulted, and the result is what [json.loads]
    makes of the variable. *)
Theorem load_spaces_env_first env s :
  getenv env "SKEDDA_SPACES" = Some s ->
  s <> "" ->
  load_spaces J json_loads env
  = match json_loads s with
    | Some spaces => (Done spaces, [])
    | None => (Exit 1, ["invalid spaces json"])
    end.
Proof.
  intros Hs Hne. apply String.eqb_neq in Hne.
  unfold load_spaces, env_value. rewrite Hs. cbv zeta.
  cbn [value_truthy truthy]. rewrite Hne. cbn [negb value_truthy truthy].
  rewrite Hne. reflexivity.
Qed.

(** Lines 83-96: when the environment gives no SKEDDA_SPACES and
    config.json holds the mapping itself, or any other true value that is
    not a str, [json.loads] raises TypeError, which the except clause for
    JSONDecodeError does not catch. *)
Theorem load_spaces_config_not_str env config v :
  env_set env "SKEDDA_SPACES" = false ->
  config_json env = Some config ->
  lookup "SKEDDA_SPACES" config = Some v ->
  value_truthy v = true ->
  (forall s, v <> VScalar (SStr s)) ->
  load_spaces J json_loads env = (Crash TypeError, []).
Proof.
  intros He Hc Hl Hv Hns. unfold env_set in He. unfold load_spaces. cbv zeta.
  rewrite He, Hc, Hl, Hv. cbn [negb].
  destruct v as [[ | | | s] | | ]; try reflexivity. now contradiction (Hns s).
Qed.

(** Lines 81-93: [load_spaces] prints 'missing spaces config' and exits
    exactly when SKEDDA_SPACES is unset or empty in the environment and
    config.json cannot be read, lacks the key, or holds a false value
    under it. *)
Theorem load_spaces_missing_iff env :
  load_spaces J json_loads env = (Exit 1, ["missing spaces config"])
  <-> env_set env "SKEDDA_SPACES" = false
      /\ match config_json env with
         | Some config =>
             match lookup "SKEDDA_SPACES" config with
             | Some v => value_truthy v = false
             | None => True
             end
         | None => True
         end.
Proof.
  unfold env_set, load_spaces. cbv zeta.
  destruct (value_truthy (env_value env "SKEDDA_SPACES")) eqn:He.
  - rewrite He. cbn [negb]. split; [ | intros [H _]; discriminate H].
    unfold env_value. destruct (getenv env "SKEDDA_SPACES") as [s | ];
      [ | discriminate]. destruct (json_loads s); discriminate.
  - destruct (config_json env) as [config | ].
    + destruct (lookup "SKEDDA_SPACES" config) as [v | ].
      * destruct (value_truthy v) eqn:Hv; cbn [negb].
        -- split; [ | intros [_ H]; discriminate H].
           destruct v as [[ | | | s] | | ]; try discriminate.
           destruct (json_loads s); discriminate.
        -- split; auto.
      * cbn. split; auto.
    + rewrite He. cbn [negb]. split; auto.
Qed.

(** Lines 26-32: when SKEDDA_VENUE_ID or SKEDDA_USER_ID is unset or empty,
    [__init__] prints 'missing venue_id or user_id' and exits with code 1,
    before it looks at the spaces or the credentials. *)
Theorem init_needs_ids env :
  env_set env "SKEDDA_VENUE_ID" = false \/ env_set env "SKEDDA_USER_ID" = false ->
  __init__ unquote J json_loads env = (Exit 1, ["missing venue_id or user_id"]).
Proof.
  unfold env_set, __init__, env_value. cbv zeta.
  destruct (getenv env "SKEDDA_VENUE_ID") as [v | ];
    destruct (getenv env "SKEDDA_USER_ID") as [u | ]; try reflexivity.
  intros [H | H]; rewrite H; [reflexivity | ]. now rewrite orb_true_r.
Qed.

Lemma lstrip_idem p s : lstrip p (lstrip p s) = lstrip p s.
Proof.
  induction s as [ | c s IH]; [reflexivity | ]. simpl.
  destruct (p c) eqn:Hc; [exact IH | ]. simpl. now rewrite Hc.
Qed.

Lemma rstrip_idem p s : rstrip p (rstrip p s) = rstrip p s.
Proof.
  induction s as [ | c s IH]; [reflexivity | ]. simpl.
  destruct (p c && (rstrip p s =? "")%string) eqn:Hc; [reflexivity | ].
  simpl. now rewrite IH, Hc.
Qed.

Lemma lstrip_rstrip p s :
  lstrip p (rstrip p (lstrip p s)) = rstrip p (lstrip p s).
Proof.
  induction s as [ | c s IH]; [reflexivity | ]. simpl.
  destruct (p c) eqn:Hc; [exact IH | ]. simpl. rewrite Hc. simpl. now rewrite Hc.
Qed.

Lemma strip_idem p s : strip p (strip p s) = strip p s.
Proof. unfold strip. now rewrite lstrip_rstrip, rstrip_idem. Qed.

(** Lines 23-62: what holds once [__init__] returns: nothing was printed,
    the venue and user ids are the non-empty strings of the environment,
    the spaces are those [load_spaces] found, the cookies and the token
    those [load_auth] found, and the token has no whitespace around it. *)
Theorem init_done env st out :
  __init__ unquote J json_loads env = (Done st, out) ->
  out = []
  /\ getenv env "SKEDDA_VENUE_ID" = Some (l_venue_id J st) /\ l_venue_id J st <> ""
  /\ getenv env "SKEDDA_USER_ID" = Some (l_user_id J st) /\ l_user_id J st <> ""
  /\ load_spaces J json_loads env = (Done (l_spaces J st), [])
  /\ load_auth unquote env = (Done (l_cookies J st, l_token J st), [])
  /\ strip is_space (l_token J st) = l_token J st.
Proof.
  unfold __init__, env_value. cbv zeta.
  destruct (getenv env "SKEDDA_VENUE_ID") as [v | ]; [ | discriminate].
  destruct (getenv env "SKEDDA_USER_ID") as [u | ]; [ | discriminate].
  cbn [value_truthy truthy].
  destruct (String.eqb_spec v ""); [discriminate | ].
  destruct (String.eqb_spec u ""); [discriminate | ]. cbn [negb orb].
  assert (Hs : forall r o, load_spaces J json_loads env = (r, o) -> o = [] \/ exists c, r = Exit c).
  { unfold load_spaces. cbv zeta. intros r o.
    destruct (negb _); [intros H; injection H as <- <-; eauto | ].
    match goal with |- context [match ?x with VScalar _ => _ | _ => _ end] =>
      destruct x as [[ | | | s] | | ] end;
      try (intros H; injection H as <- <-; now left).
    destruct (json_loads s); intros H; injection H as <- <-; eauto. }
  assert (Ha : forall cookies token o,
             load_auth unquote env = (Done (cookies, token), o) ->
             o = [] /\ strip is_space token = token).
  { unfold load_auth. cbv zeta. intros cookies token o.
    match goal with |- context [match ?x with Some _ => _ | None => _ end] =>
      destruct x as [[[[ | | | c] | | ] [[ | | | t] | | ]] | ] end;
      try discriminate.
    intros H. injection H as _ <- <-. split; [reflexivity | apply strip_idem]. }
  destruct (load_spaces J json_loads env) as [[spaces | code | e] out1] eqn:Hsp;
    try discriminate.
  destruct (Hs _ _ eq_refl) as [-> | [c Hc]]; [ | discriminate Hc].
  destruct (load_auth unquote env) as [[[cookies token] | code | e] out2] eqn:Hau;
    try discriminate.
  destruct (Ha _ _ _ eq_refl) as [-> Htok].
  intros H. injection H as <- <-. cbn. repeat split; auto.
Qed.

End ConfigFacts.

(** ** The cookie parser and the configuration on concrete inputs *)

Example parse_cookies_sample :
  parse_cookies Unquote.low
    ("  " ++ quoted "a=b; c=d%20e; junk; a=z=1; =x" ++ "  ")
  = [("a", "z=1"); ("c", "d e"); ("", "x")].
Proof. reflexivity. Qed.

Example init_sample :
  __init__ Unquote.low dict json_flat full_env
  = (Done (mkloaded dict "https://your-instance.skedda.com" "venue" "user"
                    [("r1", "Desk A"); ("r2", "Desk B")]
                    [("sid", "abc"); ("theme", "dark")] "tok"),
     []).
Proof. reflexivity. Qed.

Lemma parse_cookies_round_trip_witness :
  parse_cookies Unquote.low (cookie_header [("sid", "abc=="); ("theme", "dark")])
  = [("sid", "abc=="); ("theme", "dark")].
Proof.
  apply (parse_cookies_round_trip Unquote.low).
  - repeat constructor.
  - repeat constructor.
  - repeat constructor; simpl; intuition discriminate.
Defined.

Lemma parse_cookies_last_wins_witness :
  dict_get "a" (parse_cookies Unquote.low
                  (cookie_header [("a", "1"); ("b", "2"); ("a", "3")]))
  = option_map (stored Unquote.low) (last_value "a" [("a", "1"); ("b", "2"); ("a", "3")]).
Proof.
  apply (parse_cookies_last_wins Unquote.low). repeat constructor.
Defined.

Lemma parse_cookies_no_equals_witness :
  parse_cookies Unquote.low "junk; more junk" = [].
Proof. apply (parse_cookies_no_equals Unquote.low). reflexivity. Defined.

Lemma parse_cookies_wrapped_witness :
  parse_cookies Unquote.low
    ("  " ++ String dquote "" ++ "sid=abc; theme=dark" ++ String dquote "" ++ " ")
  = parse_cookies Unquote.low "sid=abc; theme=dark".
Proof. apply (parse_cookies_wrapped Unquote.low); reflexivity. Defined.

Lemma load_auth_env_without_token_witness :
  load_auth Unquote.low
    (env_of [("SKEDDA_COOKIES", "sid=abc")]
            (Some [("SKEDDA_COOKIES", VScalar (SStr "sid=xyz"));
                   ("SKEDDA_TOKEN", VScalar (SStr "tok"))]))
  = (Crash AttributeError, []).
Proof.
  apply (load_auth_env_without_token Unquote.low _ "sid=abc").
  - reflexivity.
  - discriminate.
  - reflexivity.
Defined.

Lemma load_spaces_env_first_witness :
  load_spaces dict json_flat full_env
  = match json_flat two_desks_json with
    | Some spaces => (Done spaces, [])
    | None => (Exit 1, ["invalid spaces json"])
    end.
Proof.
  apply (load_spaces_env_first dict json_flat full_env two_desks_json).
  - reflexivity.
  - discriminate.
Defined.

Lemma load_spaces_config_not_str_witness :
  load_spaces dict json_flat
    (env_of [] (Some [("SKEDDA_SPACES", VDict ["r1"; "r2"])]))
  = (Crash TypeError, []).
Proof.
  apply (load_spaces_config_not_str dict json_flat _
           [("SKEDDA_SPACES", VDict ["r1"; "r2"])] (VDict ["r1"; "r2"])).
  - reflexivity.
  - reflexivity.
  - reflexivity.
  - reflexivity.
  - discriminate.
Defined.

Lemma init_needs_ids_witness :
  __init__ Unquote.low dict json_flat
    (env_of [("SKEDDA_VENUE_ID", "venue"); ("SKEDDA_USER_ID", "")] None)
  = (Exit 1, ["missing venue_id or user_id"]).
Proof.
  apply (init_needs_ids Unquote.low dict json_flat). right. reflexivity.
Defined.

Lemma init_done_witness :
  @nil string = []
  /\ getenv full_env "SKEDDA_VENUE_ID" = Some "venue" /\ "venue" <> ""
  /\ getenv full_env "SKEDDA_USER_ID" = Some "user" /\ "user" <> ""
  /\ load_spaces dict json_flat full_env
     = (Done [("r1", "Desk A"); ("r2", "Desk B")], [])
  /\ load_auth Unquote.low full_env
     = (Done ([("sid", "abc"); ("theme", "dark")], "tok"), [])
  /\ strip is_space "tok" = "tok".
Proof.
  apply (init_done Unquote.low dict json_flat full_env
           (mkloaded dict "https://your-instance.skedda.com" "venue" "user"
                     [("r1", "Desk A"); ("r2", "Desk B")]
                     [("sid", "abc"); ("theme", "dark")] "tok")
           []).
  reflexivity.
Defined.
